(** * sol: a command-line weather forecast client

    Shallow embedding of the Go program (package [main]) and the
    properties of its forecast client and forecast presenter.

    The program talks to the outside world through the Go standard
    library: the command line ([flag]), one HTTP request ([net/http]),
    JSON decoding ([encoding/json]), the time-zone database and the
    wall clock ([time]) and the formatting of floating-point numbers
    ([strconv], [fmt]).  None of that is code of the program, so it is
    gathered in one record, [World], over which every definition is
    parameterised; only the encoding of the query by [net/url], which
    is a pure function of the parameters, is written out.  What the
    program itself computes (the query it builds, the errors it makes,
    the scan for the current hour, the two rendering loops, the exit
    status) is modelled in full.

    Two source files are covered: the program with the search for the
    current hour ([main]) and the earlier src/main.go ([main0]), which
    has the same client and daily summary and starts the hourly summary
    at the first entry.

    Effects are modelled as the code has them: a run produces a trace of
    observable events (text written to standard output, the HTTP
    request) and ends by returning, by [os.Exit], or by a run-time
    panic (an index out of range, a nil dereference). *)

From Stdlib Require Import ZArith List String Ascii Bool Lia.
From Stdlib Require Import DecimalString DecimalZ PrimFloat SpecFloat FloatOps.
Import ListNotations.

Open Scope list_scope.
Open Scope string_scope.
Open Scope Z_scope.

Set Implicit Arguments.
Set Warnings "-inexact-float".

(** ** Go values *)

(** [float64] is IEEE 754 binary64, as Rocq's primitive floats. *)
Definition float64 : Type := PrimFloat.float.

(** The line feed, written [\n] in the Go format strings. *)
Definition nl : string := String (ascii_of_nat 10) EmptyString.

(** The verb [%d] on an [int]: decimal digits, [-] in front of a
    negative number. *)
Definition itoa (n : Z) : string := NilEmpty.string_of_int (Z.to_int n).

(** [len] of a slice, as a Go [int].  The program's arithmetic on
    [int] is [i+1], [currentIndex+5] and [maxIndex-currentIndex] on
    indices between 0 and the length of a slice, far from the ends of
    the 64-bit range, so [int] is modelled by [Z]. *)
Definition len {A : Type} (l : list A) : Z := Z.of_nat (List.length l).

(** Go's [error] values as this program builds and meets them.
    [fmt.Errorf] with a [%w] verb gives an error that wraps its
    argument, the message being the format with the argument's message
    in the place of the verb; without [%w] it gives a plain message.
    The errors reported by the standard library are arbitrary values of
    this type. *)
Inductive error : Type :=
| errorString (s : string)
| wrapError (msg : string) (err : error).

Definition Error (e : error) : string :=
  match e with
  | errorString s => s
  | wrapError msg _ => msg
  end.

Definition Unwrap (e : error) : option error :=
  match e with
  | errorString _ => None
  | wrapError _ err => Some err
  end.

(** [fmt.Errorf(prefix + "%w", err)] *)
Definition Errorf_w (prefix : string) (err : error) : error :=
  wrapError (prefix ++ Error err) err.

(** ** The forecast record (lines 15-35) *)

Record HourlyData : Type := {
  Hourly_Time : list string;
  Hourly_Temperature2m : list float64;
  Hourly_PrecipitationProbability : list float64;
  Hourly_Precipitation : list float64
}.

Record DailyData : Type := {
  Daily_Time : list string;
  Daily_Temperature2mMax : list float64;
  Daily_Temperature2mMin : list float64;
  Daily_PrecipitationSum : list float64;
  Daily_RainSum : list float64;
  Daily_PrecipitationHours : list float64;
  Daily_PrecipitationProbabilityMax : list float64;
  Daily_WindSpeed10mMax : list float64
}.

Record WeatherResponse : Type := {
  Latitude : float64;
  Longitude : float64;
  Timezone : string;
  Hourly : HourlyData;
  Daily : DailyData
}.

(** The invariant of the data model: the parallel sequences of each
    group share one length.  The decoder does not enforce it. *)
Definition hourly_aligned (h : HourlyData) : Prop :=
  len (Hourly_Temperature2m h) = len (Hourly_Time h) /\
  len (Hourly_PrecipitationProbability h) = len (Hourly_Time h) /\
  len (Hourly_Precipitation h) = len (Hourly_Time h).

Definition daily_aligned (d : DailyData) : Prop :=
  len (Daily_Temperature2mMax d) = len (Daily_Time d) /\
  len (Daily_Temperature2mMin d) = len (Daily_Time d) /\
  len (Daily_PrecipitationSum d) = len (Daily_Time d) /\
  len (Daily_RainSum d) = len (Daily_Time d) /\
  len (Daily_PrecipitationHours d) = len (Daily_Time d) /\
  len (Daily_PrecipitationProbabilityMax d) = len (Daily_Time d) /\
  len (Daily_WindSpeed10mMax d) = len (Daily_Time d).

Definition aligned (r : WeatherResponse) : Prop :=
  hourly_aligned (Hourly r) /\ daily_aligned (Daily r).

(** ** Time values

    A [time.Time] is an instant together with the location it is shown
    in.  [After] compares instants only. *)

Record Location : Type := {
  loc_name : string;
  (** offset east of UTC, in seconds, in force at a Unix time *)
  loc_offset : Z -> Z
}.

Record Time : Type := {
  unixNano : Z;
  location : Location
}.

(** [t.In(loc)]: the same instant, shown in [loc]. *)
Definition Time_In (t : Time) (loc : Location) : Time :=
  {| unixNano := unixNano t; location := loc |}.

(** [t.After(u)] *)
Definition After (t u : Time) : bool := unixNano u <? unixNano t.

(** ** The world outside the program *)

(** An HTTP response as [GetWeatherForecast] uses it: the status code
    and what [io.ReadAll] makes of the body. *)
Record Response : Type := {
  StatusCode : Z;
  Body_ReadAll : list Byte.byte + error
}.

(** The command line after [flag.Parse]: the value of each flag that
    was set. *)
Record Flags : Type := {
  flag_lat : option float64;
  flag_lon : option float64;
  flag_days : option Z
}.

Record World : Type := {
  (** [strconv.FormatFloat(f, fmt, prec, bitSize)] *)
  strconv_FormatFloat : float64 -> ascii -> Z -> Z -> string;
  (** the verb [%.Nf] of [fmt] *)
  fmt_f : Z -> float64 -> string;
  (** [(&http.Client{}).Get(url)] *)
  http_Get : string -> Response + error;
  (** [json.Unmarshal] into a zero [WeatherResponse] *)
  json_Unmarshal : list Byte.byte -> WeatherResponse + error;
  (** [time.LoadLocation(name)] *)
  time_LoadLocation : string -> Location + error;
  (** [time.Now()] *)
  time_Now : Time;
  (** [time.ParseInLocation(layout, value, loc)] *)
  time_ParseInLocation : string -> string -> Location -> Time + error;
  (** [t.Format(layout)] *)
  time_Format : Time -> string -> string
}.

(** ** Runs: traces and outcomes *)

Inductive event : Type :=
| Stdout (s : string)
| HttpGet (url : string).

Inductive outcome (A : Type) : Type :=
| Return (a : A)
| Exit (code : Z)
| Panic (reason : string).

Arguments Return {A} a.
Arguments Exit {A} code.
Arguments Panic {A} reason.

Definition IO (A : Type) : Type := (list event * outcome A)%type.

Definition ret {A : Type} (a : A) : IO A := ([], Return a).

Definition bind {A B : Type} (m : IO A) (f : A -> IO B) : IO B :=
  match m with
  | (t, Return a) => let (t', o) := f a in ((t ++ t')%list, o)
  | (t, Exit code) => (t, Exit code)
  | (t, Panic r) => (t, Panic r)
  end.

Notation "x <- m ;; k" := (bind m (fun x => k))
  (at level 61, m at next level, right associativity).
Notation "m ;; k" := (bind m (fun _ => k))
  (at level 61, right associativity).

Definition trace {A : Type} (m : IO A) : list event := fst m.
Definition result {A : Type} (m : IO A) : outcome A := snd m.

(** [fmt.Print] of an already formatted string *)
Definition print (s : string) : IO unit := ([Stdout s], Return tt).

(** [os.Exit(code)] *)
Definition os_Exit (code : Z) : IO unit := ([], Exit code).

Definition panic {A : Type} (reason : string) : IO A := ([], Panic reason).

(** [s[i]] on a slice: a run-time panic outside [0 <= i < len(s)]. *)
Definition index {A : Type} (s : list A) (i : Z) : IO A :=
  if (0 <=? i) && (i <? len s) then
    match nth_error s (Z.to_nat i) with
    | Some x => ret x
    | None => panic "index out of range"
    end
  else panic "index out of range".

(** [for i := lo; i < hi; i++ { body }]: the body is run at
    [lo], [lo+1], ... as long as the counter is below [hi]; it answers
    [true] to [break].  Neither loop of the program assigns to its
    counter or its bound, so the loop runs at most [hi - lo] times. *)
Fixpoint for_from (n : nat) (i : Z) (body : Z -> IO bool) : IO unit :=
  match n with
  | O => ret tt
  | S n' =>
      brk <- body i ;;
      if brk : bool then ret tt else for_from n' (i + 1) body
  end.

Definition for_lt (lo hi : Z) (body : Z -> IO bool) : IO unit :=
  for_from (Z.to_nat (hi - lo)) lo body.

(** ** [net/url]: query values and their encoding

    [url.Values] maps a key to the list of its values.  [Add] appends a
    value to the list of its key; [Encode] writes the pairs sorted by
    key, each key and value escaped as a query component and the pairs
    joined by [&]. *)

Definition Values : Type := list (string * list string).

Fixpoint Values_Add (v : Values) (key value : string) : Values :=
  match v with
  | [] => [(key, [value])]
  | (k, vs) :: rest =>
      if (k =? key)%string then (k, (vs ++ [value])%list) :: rest
      else (k, vs) :: Values_Add rest key value
  end.

Fixpoint Values_lookup (v : Values) (key : string) : list string :=
  match v with
  | [] => []
  | (k, vs) :: rest =>
      if (k =? key)%string then vs else Values_lookup rest key
  end.

(** The bytes that a query component keeps as they are: letters,
    digits and [-], [_], [.], [~]. *)
Definition shouldEscape (c : ascii) : bool :=
  let n := Z.of_nat (nat_of_ascii c) in
  if ((97 <=? n) && (n <=? 122)) || ((65 <=? n) && (n <=? 90))
     || ((48 <=? n) && (n <=? 57)) then false
  else if (n =? 45) || (n =? 95) || (n =? 46) || (n =? 126) then false
  else true.

Definition upperhex (n : nat) : ascii :=
  match String.get n "0123456789ABCDEF" with
  | Some c => c
  | None => "0"%char
  end.

Fixpoint QueryEscape (s : string) : string :=
  match s with
  | EmptyString => EmptyString
  | String c rest =>
      if Ascii.eqb c " " then String "+" (QueryEscape rest)
      else if shouldEscape c then
        String "%" (String (upperhex (nat_of_ascii c / 16))
                   (String (upperhex (nat_of_ascii c mod 16))
                           (QueryEscape rest)))
      else String c (QueryEscape rest)
  end.

Fixpoint sort_insert (k : string) (ks : list string) : list string :=
  match ks with
  | [] => [k]
  | k' :: rest =>
      if String.leb k k' then k :: ks else k' :: sort_insert k rest
  end.

Definition slices_Sort (ks : list string) : list string :=
  fold_right sort_insert [] ks.

(** One [key=value] pair written to the buffer, after a [&] unless the
    buffer is empty. *)
Definition Encode_pair (keyEscaped buf value : string) : string :=
  let buf :=
    if 0 <? Z.of_nat (String.length buf) then buf ++ "&" else buf in
  buf ++ keyEscaped ++ "=" ++ QueryEscape value.

Definition Values_Encode (v : Values) : string :=
  fold_left
    (fun buf k =>
       let keyEscaped := QueryEscape k in
       fold_left (Encode_pair keyEscaped) (Values_lookup v k) buf)
    (slices_Sort (map fst v)) "".

Section Program.

Variable W : World.

(** ** Forecast client: [GetWeatherForecast] (lines 37-74) *)

Definition baseURL : string := "https://api.open-meteo.com/v1/forecast".

(** lines 40-45 *)
Definition params (latitude longitude : float64) : Values :=
  let params : Values := [] in
  let params :=
    Values_Add params "latitude"
               (strconv_FormatFloat W latitude "f" (-1) 64) in
  let params :=
    Values_Add params "longitude"
               (strconv_FormatFloat W longitude "f" (-1) 64) in
  let params :=
    Values_Add params "hourly"
               "temperature_2m,precipitation_probability,precipitation" in
  let params :=
    Values_Add params "daily"
               "temperature_2m_max,temperature_2m_min,precipitation_sum,rain_sum,precipitation_hours,precipitation_probability_max,wind_speed_10m_max" in
  Values_Add params "timezone" "auto".

(** line 47 *)
Definition fullURL (latitude longitude : float64) : string :=
  baseURL ++ "?" ++ Values_Encode (params latitude longitude).

(** [client.Get(url)]: the call is observable, its answer is the
    world's.  The event stands for the program's call of [Get]; what
    the library's client sends on the wire for one call (it follows
    redirects) is the library's doing and is part of the world. *)
Definition client_Get (url : string) : IO (Response + error) :=
  ([HttpGet url], Return (http_Get W url)).

(** lines 50-73; the deferred [resp.Body.Close()] has no effect that
    the program observes. *)
Definition GetWeatherForecast (latitude longitude : float64)
  : IO (option WeatherResponse * option error) :=
  r <- client_Get (fullURL latitude longitude) ;;
  match r with
  | inr err => ret (None, Some (Errorf_w "error making request: " err))
  | inl resp =>
      if negb (StatusCode resp =? 200) then
        ret (None,
             Some (errorString ("API request failed with status code: "
                                ++ itoa (StatusCode resp))))
      else
        match Body_ReadAll resp with
        | inr err =>
            ret (None, Some (Errorf_w "error reading response body: " err))
        | inl body =>
            match json_Unmarshal W body with
            | inr err =>
                ret (None,
                     Some (Errorf_w "error parsing JSON response: " err))
            | inl weatherResponse => ret (Some weatherResponse, None)
            end
        end
  end.

(** ** Forecast presenter: [findCurrentHourIndex] (lines 76-105) *)

(** The loop of lines 88-100, entered at index [i] with the entries
    from [i] on still to scan.  [Some j]: the function returned [j]
    from inside the loop; [None]: the loop ran to its end. *)
Fixpoint scanHours (loc : Location) (currentTime : Time) (i : Z)
         (hourlyTimes : list string) : IO (option Z) :=
  match hourlyTimes with
  | [] => ret None
  | timeStr :: rest =>
      match time_ParseInLocation W "2006-01-02T15:04" timeStr loc with
      | inr _ => scanHours loc currentTime (i + 1) rest
      | inl forecastTime =>
          if After forecastTime currentTime then
            print ("Found next forecast time: "
                   ++ time_Format W forecastTime "2006-01-02 15:04"
                   ++ " (index " ++ itoa i ++ ")" ++ nl) ;;
            ret (Some i)
          else scanHours loc currentTime (i + 1) rest
      end
  end.

Definition findCurrentHourIndex (hourlyTimes : list string)
           (timezone : string) : IO (Z * option error) :=
  match time_LoadLocation W timezone with
  | inr err =>
      ret (0, Some (Errorf_w ("error loading timezone " ++ timezone ++ ": ")
                             err))
  | inl loc =>
      let currentTime := Time_In (time_Now W) loc in
      print ("Current time in " ++ timezone ++ ": "
             ++ time_Format W currentTime "2006-01-02 15:04:05" ++ nl) ;;
      r <- scanHours loc currentTime 0 hourlyTimes ;;
      match r with
      | Some i => ret (i, None)
      | None =>
          print ("No future forecast times found, starting from beginning"
                 ++ nl) ;;
          ret (0, None)
      end
  end.

(** ** [main] (lines 107-194) *)

Definition defaultLat : float64 := 40.71%float.
Definition defaultLon : float64 := (-74.01)%float.
Definition defaultDays : Z := 2.

(** [flag.NFlag()]: the number of flags that were set. *)
Definition flag_set {A : Type} (set : option A) : Z :=
  match set with
  | Some _ => 1
  | None => 0
  end.

Definition NFlag (f : Flags) : Z :=
  flag_set (flag_lat f) + flag_set (flag_lon f) + flag_set (flag_days f).

Definition flag_value {A : Type} (set : option A) (default : A) : A :=
  match set with
  | Some v => v
  | None => default
  end.

(** lines 145-152 *)
Definition dayLabel (i : Z) : string :=
  if i =? 0 then "Today"
  else if i =? 1 then "Tomorrow"
  else "Day " ++ itoa (i + 1).

(** The body of the daily loop, lines 145-163.  The arguments of a
    [Printf] are evaluated before it prints. *)
Definition main_daily_body (response : WeatherResponse) (i : Z) : IO bool :=
  let d := Daily response in
  date <- index (Daily_Time d) i ;;
  print (dayLabel i ++ " (" ++ date ++ "):" ++ nl) ;;
  tmin <- index (Daily_Temperature2mMin d) i ;;
  tmax <- index (Daily_Temperature2mMax d) i ;;
  print ("  Temperature: " ++ fmt_f W 1 tmin ++ "°C to "
         ++ fmt_f W 1 tmax ++ "°C" ++ nl) ;;
  psum <- index (Daily_PrecipitationSum d) i ;;
  pmax <- index (Daily_PrecipitationProbabilityMax d) i ;;
  print ("  Precipitation: " ++ fmt_f W 1 psum ++ " mm (probability: "
         ++ fmt_f W 1 pmax ++ "%)" ++ nl) ;;
  rain <- index (Daily_RainSum d) i ;;
  hours <- index (Daily_PrecipitationHours d) i ;;
  print ("  Rain: " ++ fmt_f W 1 rain ++ " mm - Precipitation Hours: "
         ++ fmt_f W 1 hours ++ nl) ;;
  wind <- index (Daily_WindSpeed10mMax d) i ;;
  print ("  Max Wind Speed: " ++ fmt_f W 1 wind ++ " km/h" ++ nl ++ nl) ;;
  ret false.

(** lines 139-164 (src/main.go: lines 106-131) *)
Definition main_daily (response : WeatherResponse) (days : Z) : IO unit :=
  let daysToShow := days in
  let daysToShow :=
    if len (Daily_Time (Daily response)) <? daysToShow
    then len (Daily_Time (Daily response)) else daysToShow in
  for_lt 0 daysToShow (main_daily_body response).

(** The body of the hourly loop, lines 183-192. *)
Definition main_hourly_body (response : WeatherResponse)
           (currentIndex j : Z) : IO bool :=
  let h := Hourly response in
  let idx := currentIndex + j in
  if idx >=? len (Hourly_Time h) then ret true
  else
    time <- index (Hourly_Time h) idx ;;
    temp <- index (Hourly_Temperature2m h) idx ;;
    precip <- index (Hourly_Precipitation h) idx ;;
    prob <- index (Hourly_PrecipitationProbability h) idx ;;
    print ("  " ++ time ++ ": " ++ fmt_f W 1 temp ++ "°C, Precipitation: "
           ++ fmt_f W 1 precip ++ " mm (" ++ fmt_f W 1 prob
           ++ "% probability)" ++ nl) ;;
    ret false.

(** lines 173-193: the hourly summary from the index [currentIndex] *)
Definition main_hourly_from (response : WeatherResponse)
           (currentIndex : Z) : IO unit :=
  let hoursToPrint := 5 in
  print ("Hourly Forecast (next " ++ itoa hoursToPrint ++ " hours):" ++ nl) ;;
  let maxIndex := len (Hourly_Time (Hourly response)) in
  let hoursToPrint :=
    if currentIndex + hoursToPrint >? maxIndex
    then maxIndex - currentIndex else hoursToPrint in
  for_lt 0 hoursToPrint (main_hourly_body response currentIndex).

(** lines 166-193 *)
Definition main_hourly (response : WeatherResponse) : IO unit :=
  r <- findCurrentHourIndex (Hourly_Time (Hourly response))
                            (Timezone response) ;;
  currentIndex <-
    match r with
    | (_, Some err) =>
        print ("Warning: Could not determine current time, showing from beginning: "
               ++ Error err ++ nl) ;;
        ret 0
    | (currentIndex, None) => ret currentIndex
    end ;;
  main_hourly_from response currentIndex.

(** lines 107-137, then the two summaries; [hourly] is the hourly part,
    which is where the two source files differ. *)
Definition main_with (hourly : WeatherResponse -> IO unit)
           (flags : Flags) : IO unit :=
  let latitude := flag_value (flag_lat flags) defaultLat in
  let longitude := flag_value (flag_lon flags) defaultLon in
  let days := flag_value (flag_days flags) defaultDays in
  (if NFlag flags =? 0 then
     print ("Using default location: New York City ("
            ++ fmt_f W 2 defaultLat ++ ", " ++ fmt_f W 2 defaultLon
            ++ ") and " ++ itoa defaultDays ++ " days" ++ nl) ;;
     print ("You can specify location and days with: -lat=<value> -lon=<value> -days=<value>"
            ++ nl)
   else ret tt) ;;
  (if days <? 1 then
     print ("Error: Days must be at least 1" ++ nl) ;;
     os_Exit 1
   else ret tt) ;;
  r <- GetWeatherForecast latitude longitude ;;
  let (response, err) := r in
  match err with
  | Some err =>
      print ("Error getting weather forecast: " ++ Error err ++ nl) ;;
      os_Exit 1
  | None =>
      match response with
      | None => panic "nil pointer dereference"
      | Some response =>
          print ("Weather for: " ++ fmt_f W 4 (Latitude response) ++ ", "
                 ++ fmt_f W 4 (Longitude response) ++ " - Timezone: "
                 ++ Timezone response ++ nl) ;;
          main_daily response days ;;
          hourly response
      end
  end.

Definition main (flags : Flags) : IO unit := main_with main_hourly flags.

(** *** The earlier program, src/main.go: no search for the current
    hour, the hourly summary starts at the first entry
    (lines 133-145). *)

Definition main0_hourly_body (response : WeatherResponse) (j : Z)
  : IO bool :=
  let h := Hourly response in
  time <- index (Hourly_Time h) j ;;
  temp <- index (Hourly_Temperature2m h) j ;;
  precip <- index (Hourly_Precipitation h) j ;;
  prob <- index (Hourly_PrecipitationProbability h) j ;;
  print ("  " ++ time ++ ": " ++ fmt_f W 1 temp ++ "°C, Precipitation: "
         ++ fmt_f W 1 precip ++ " mm (" ++ fmt_f W 1 prob
         ++ "% probability)" ++ nl) ;;
  ret false.

Definition main0_hourly (response : WeatherResponse) : IO unit :=
  let hoursToPrint := 5 in
  print ("Hourly Forecast (next " ++ itoa hoursToPrint ++ " hours):" ++ nl) ;;
  let hoursToPrint :=
    if len (Hourly_Time (Hourly response)) <? hoursToPrint
    then len (Hourly_Time (Hourly response)) else hoursToPrint in
  for_lt 0 hoursToPrint (main0_hourly_body response).

Definition main0 (flags : Flags) : IO unit := main_with main0_hourly flags.

End Program.

(** * Specification vocabulary *)

(** The indices [lo], [lo+1], ..., [lo+n-1]. *)
Definition Zseq (lo : Z) (n : nat) : list Z :=
  map (fun k => lo + Z.of_nat k) (seq 0 n).

(** The four ways [GetWeatherForecast] fails, and the error value the
    code builds for each (lines 52, 58, 64, 70). *)
Inductive FetchError : Type :=
| TransportError (cause : error)
| StatusError (code : Z)
| BodyReadError (cause : error)
| DecodeError (cause : error).

Definition fetch_error (k : FetchError) : error :=
  match k with
  | TransportError cause => Errorf_w "error making request: " cause
  | StatusError code =>
      errorString ("API request failed with status code: " ++ itoa code)
  | BodyReadError cause => Errorf_w "error reading response body: " cause
  | DecodeError cause => Errorf_w "error parsing JSON response: " cause
  end.

(** What [GetWeatherForecast] returns, by the answer of the world. *)
Definition fetch_outcome (W : World) (latitude longitude : float64)
  : WeatherResponse + FetchError :=
  match http_Get W (fullURL W latitude longitude) with
  | inr cause => inr (TransportError cause)
  | inl resp =>
      if StatusCode resp =? 200 then
        match Body_ReadAll resp with
        | inr cause => inr (BodyReadError cause)
        | inl body =>
            match json_Unmarshal W body with
            | inr cause => inr (DecodeError cause)
            | inl response => inl response
            end
        end
      else inr (StatusError (StatusCode resp))
  end.







(** The timestamp [s] parses, in [loc], to an instant strictly after
    [now]. *)
Definition future (W : World) (loc : Location) (now : Time) (s : string)
  : Prop :=
  exists t, time_ParseInLocation W "2006-01-02T15:04" s loc = inl t
            /\ unixNano now < unixNano t.

Definition unparseable (W : World) (loc : Location) (s : string) : Prop :=
  exists e, time_ParseInLocation W "2006-01-02T15:04" s loc = inr e.

(** Entry [i] of [hourlyTimes] is in the future and no entry before it
    is. *)
Definition first_future (W : World) (loc : Location) (now : Time)
           (hourlyTimes : list string) (i : Z) : Prop :=
  0 <= i < len hourlyTimes
  /\ (exists s, nth_error hourlyTimes (Z.to_nat i) = Some s
                /\ future W loc now s)
  /\ (forall j s, 0 <= j < i ->
                  nth_error hourlyTimes (Z.to_nat j) = Some s ->
                  ~ future W loc now s).

Definition no_future (W : World) (loc : Location) (now : Time)
           (hourlyTimes : list string) : Prop :=
  forall s, List.In s hourlyTimes -> ~ future W loc now s.

(** What one entry of the daily summary looks like on standard output:
    four lines for the day at index [i]. *)
Definition daily_entry (W : World) (response : WeatherResponse) (i : Z)
  : list event :=
  let d := Daily response in
  let k := Z.to_nat i in
  let f l := fmt_f W 1 (nth k l 0%float) in
  [ Stdout (dayLabel i ++ " (" ++ nth k (Daily_Time d) "" ++ "):" ++ nl);
    Stdout ("  Temperature: " ++ f (Daily_Temperature2mMin d) ++ "°C to "
            ++ f (Daily_Temperature2mMax d) ++ "°C" ++ nl);
    Stdout ("  Precipitation: " ++ f (Daily_PrecipitationSum d)
            ++ " mm (probability: "
            ++ f (Daily_PrecipitationProbabilityMax d) ++ "%)" ++ nl);
    Stdout ("  Rain: " ++ f (Daily_RainSum d)
            ++ " mm - Precipitation Hours: "
            ++ f (Daily_PrecipitationHours d) ++ nl);
    Stdout ("  Max Wind Speed: " ++ f (Daily_WindSpeed10mMax d) ++ " km/h"
            ++ nl ++ nl) ].

(** One entry of the hourly summary: one line for the hour at index
    [i]. *)
Definition hourly_entry (W : World) (response : WeatherResponse) (i : Z)
  : event :=
  let h := Hourly response in
  let k := Z.to_nat i in
  let f l := fmt_f W 1 (nth k l 0%float) in
  Stdout ("  " ++ nth k (Hourly_Time h) "" ++ ": "
          ++ f (Hourly_Temperature2m h) ++ "°C, Precipitation: "
          ++ f (Hourly_Precipitation h) ++ " mm ("
          ++ f (Hourly_PrecipitationProbability h) ++ "% probability)"
          ++ nl).

Definition hourly_header : event :=
  Stdout ("Hourly Forecast (next 5 hours):" ++ nl).

(** What [main] writes before it validates the day count. *)
Definition notice (W : World) (flags : Flags) : list event :=
  if NFlag flags =? 0 then
    [ Stdout ("Using default location: New York City ("
              ++ fmt_f W 2 defaultLat ++ ", " ++ fmt_f W 2 defaultLon
              ++ ") and 2 days" ++ nl);
      Stdout ("You can specify location and days with: -lat=<value> -lon=<value> -days=<value>"
              ++ nl) ]
  else [].

(** The coordinates and the day count a run works with. *)
Definition latitude_of (flags : Flags) : float64 :=
  flag_value (flag_lat flags) defaultLat.
Definition longitude_of (flags : Flags) : float64 :=
  flag_value (flag_lon flags) defaultLon.
Definition days_of (flags : Flags) : Z :=
  flag_value (flag_days flags) defaultDays.

(** The request of a run and the world's answer to it. *)
Definition request_of (W : World) (flags : Flags) : string :=
  fullURL W (latitude_of flags) (longitude_of flags).

Definition fetched (W : World) (flags : Flags)
  : WeatherResponse + FetchError :=
  fetch_outcome W (latitude_of flags) (longitude_of flags).

Definition days_error : event :=
  Stdout ("Error: Days must be at least 1" ++ nl).

Definition fetch_failure (err : error) : event :=
  Stdout ("Error getting weather forecast: " ++ Error err ++ nl).

Definition header (W : World) (response : WeatherResponse) : event :=
  Stdout ("Weather for: " ++ fmt_f W 4 (Latitude response) ++ ", "
          ++ fmt_f W 4 (Longitude response) ++ " - Timezone: "
          ++ Timezone response ++ nl).

Definition warning (err : error) : event :=
  Stdout ("Warning: Could not determine current time, showing from beginning: "
          ++ Error err ++ nl).

(** * A mock world

    An executable stand-in for the standard library and the weather
    service, to run the program on concrete inputs: the formatting of
    floats, a time library for the layouts the program uses over zones
    without transitions, a clock that is set by hand and a service that
    gives one canned answer. *)

Module Mock.

(** *** Floats *)

(** The integer nearest to [num / den], ties to even
    ([0 <= num], [0 < den]). *)
Definition round_div (num den : Z) : Z :=
  let q := num / den in
  let r := num mod den in
  if 2 * r <? den then q
  else if den <? 2 * r then q + 1
  else if Z.even q then q else q + 1.

Fixpoint zeros (n : nat) : string :=
  match n with
  | O => EmptyString
  | S n' => String "0" (zeros n')
  end.

(** [n / 10^prec] written with [prec] digits after the point
    ([0 <= n]). *)
Definition fixed (n prec : Z) : string :=
  if prec <=? 0 then itoa n
  else
    let digits := itoa (n mod 10 ^ prec) in
    itoa (n / 10 ^ prec) ++ "."
    ++ zeros (Z.to_nat prec - String.length digits) ++ digits.

Definition sign (s : bool) : string := if s then "-" else "".

(** [%.Nf]: the exact value, rounded to [prec] decimals, ties to
    even. *)
Definition format_f (prec : Z) (x : float64) : string :=
  match Prim2SF x with
  | S754_nan => "NaN"
  | S754_infinity s => if s then "-Inf" else "+Inf"
  | S754_zero s => sign s ++ fixed 0 prec
  | S754_finite s m e =>
      let num := Z.pos m * 10 ^ prec * 2 ^ Z.max e 0 in
      let den := 2 ^ Z.max (- e) 0 in
      sign s ++ fixed (round_div num den) prec
  end.

(** The decimal [n * 10^k] reads back as the float [m * 2^e]: it lies
    between the midpoints to the two neighbouring floats, the midpoints
    themselves counting when [m] is even.  Everything is compared in
    units of [2^(e-2)]. *)
Definition reads_back (m : positive) (e : Z) (n k : Z) : bool :=
  let below := if (Z.pos m =? 2 ^ 52) && (-1074 <? e) then 1 else 2 in
  let lo := 4 * Z.pos m - below in
  let hi := 4 * Z.pos m + 2 in
  let scale := 2 ^ Z.max (e - 2) 0 * 10 ^ Z.max (- k) 0 in
  let c := n * 10 ^ Z.max k 0 * 2 ^ Z.max (2 - e) 0 in
  if Z.even (Z.pos m)
  then (lo * scale <=? c) && (c <=? hi * scale)
  else (lo * scale <? c) && (c <? hi * scale).

(** The decimal of fewest digits that reads back as [m * 2^e], sought
    from the coarsest power of ten [10^k] downwards. *)
Fixpoint shortest (fuel : nat) (m : positive) (e : Z) (k : Z) : Z * Z :=
  let num := Z.pos m * 2 ^ Z.max e 0 * 10 ^ Z.max (- k) 0 in
  let den := 2 ^ Z.max (- e) 0 * 10 ^ Z.max k 0 in
  let n := round_div num den in
  match fuel with
  | O => (n, k)
  | S fuel' =>
      if reads_back m e n k then (n, k) else shortest fuel' m e (k - 1)
  end.

(** [strconv.FormatFloat(x, 'f', -1, 64)]; other formats are not
    mocked and fall back on [%.6f]. *)
Definition FormatFloat (x : float64) (fmt : ascii) (prec bitSize : Z)
  : string :=
  if Ascii.eqb fmt "f" && (prec =? -1) && (bitSize =? 64) then
    match Prim2SF x with
    | S754_nan => "NaN"
    | S754_infinity s => if s then "-Inf" else "+Inf"
    | S754_zero s => sign s ++ "0"
    | S754_finite s m e =>
        let (n, k) := shortest 700 m e 310 in
        sign s ++ (if 0 <=? k then itoa (n * 10 ^ k) else fixed n (- k))
    end
  else format_f 6 x.

(** *** Time *)

Definition UTC : Location := {| loc_name := "UTC"; loc_offset := fun _ => 0 |}.

Definition fixedZone (name : string) (offset : Z) : Location :=
  {| loc_name := name; loc_offset := fun _ => offset |}.

(** A small zone database: zones that keep one offset all year. *)
Definition LoadLocation (name : string) : Location + error :=
  if (name =? "")%string || (name =? "UTC")%string then inl UTC
  else if (name =? "Asia/Tokyo")%string
  then inl (fixedZone name (9 * 3600))
  else if (name =? "America/Phoenix")%string
  then inl (fixedZone name (-7 * 3600))
  else inr (errorString ("unknown time zone " ++ name)).

Definition isDigit (c : ascii) : bool :=
  let n := Z.of_nat (nat_of_ascii c) in (48 <=? n) && (n <=? 57).

Definition digit (c : ascii) : Z := Z.of_nat (nat_of_ascii c) - 48.

(** One or two digits; exactly two when [fixed]. *)
Definition getnum (s : string) (fixed : bool) : option (Z * string) :=
  match s with
  | String a rest =>
      if isDigit a then
        match rest with
        | String b rest' =>
            if isDigit b then Some (digit a * 10 + digit b, rest')
            else if fixed then None else Some (digit a, rest)
        | EmptyString => if fixed then None else Some (digit a, rest)
        end
      else None
  | EmptyString => None
  end.

(** Four digits. *)
Definition getyear (s : string) : option (Z * string) :=
  match s with
  | String a (String b (String c (String d rest))) =>
      if isDigit a && isDigit b && isDigit c && isDigit d
      then Some (((digit a * 10 + digit b) * 10 + digit c) * 10 + digit d,
                 rest)
      else None
  | _ => None
  end.

Definition skip (c : ascii) (s : string) : option string :=
  match s with
  | String a rest => if Ascii.eqb a c then Some rest else None
  | EmptyString => None
  end.

Definition isLeap (year : Z) : bool :=
  (year mod 4 =? 0) && (negb (year mod 100 =? 0) || (year mod 400 =? 0)).

Definition daysIn (month year : Z) : Z :=
  if month =? 2 then (if isLeap year then 29 else 28)
  else if (month =? 4) || (month =? 6) || (month =? 9) || (month =? 11)
  then 30 else 31.

(** Days from 1970-01-01 to the given day of the proleptic Gregorian
    calendar. *)
Definition daysSinceEpoch (year month day : Z) : Z :=
  let y := if month <=? 2 then year - 1 else year in
  let era := y / 400 in
  let yoe := y - era * 400 in
  let mp := if 2 <? month then month - 3 else month + 9 in
  let doy := (153 * mp + 2) / 5 + day - 1 in
  let doe := yoe * 365 + yoe / 4 - yoe / 100 + doy in
  era * 146097 + doe - 719468.

(** ... and back: year, month and day of a day number. *)
Definition civil (days : Z) : Z * Z * Z :=
  let z := days + 719468 in
  let era := z / 146097 in
  let doe := z - era * 146097 in
  let yoe := (doe - doe / 1460 + doe / 36524 - doe / 146096) / 365 in
  let doy := doe - (365 * yoe + yoe / 4 - yoe / 100) in
  let mp := (5 * doy + 2) / 153 in
  let day := doy - (153 * mp + 2) / 5 + 1 in
  let month := if mp <? 10 then mp + 3 else mp - 9 in
  let year := yoe + era * 400 + (if month <=? 2 then 1 else 0) in
  (year, month, day).

(** [time.Date] at a whole minute, in a zone without transitions. *)
Definition Date (year month day hour min : Z) (loc : Location) : Time :=
  let wall := daysSinceEpoch year month day * 86400 + hour * 3600 + min * 60 in
  {| unixNano := (wall - loc_offset loc wall) * 1000000000;
     location := loc |}.

(** The fields of a value written in the layout [2006-01-02T15:04]. *)
Definition fields (value : string) : option (Z * Z * Z * Z * Z) :=
  match getyear value with
  | None => None
  | Some (year, value) =>
  match skip "-" value with
  | None => None
  | Some value =>
  match getnum value true with
  | None => None
  | Some (month, value) =>
  match skip "-" value with
  | None => None
  | Some value =>
  match getnum value true with
  | None => None
  | Some (day, value) =>
  match skip "T" value with
  | None => None
  | Some value =>
  match getnum value false with
  | None => None
  | Some (hour, value) =>
  match skip ":" value with
  | None => None
  | Some value =>
  match getnum value true with
  | None => None
  | Some (min, value) =>
      match value with
      | EmptyString => Some (year, month, day, hour, min)
      | String _ _ => None
      end
  end end end end end end end end end.

Definition inRange (f : Z * Z * Z * Z * Z) : bool :=
  let '(year, month, day, hour, min) := f in
  (1 <=? month) && (month <=? 12) && (1 <=? day)
  && (day <=? daysIn month year) && (hour <? 24) && (min <? 60).

(** [time.ParseInLocation] for the layout of the forecast
    timestamps. *)
Definition ParseInLocation (layout value : string) (loc : Location)
  : Time + error :=
  if (layout =? "2006-01-02T15:04")%string then
    match fields value with
    | Some (year, month, day, hour, min) =>
        if inRange (year, month, day, hour, min)
        then inl (Date year month day hour min loc)
        else inr (errorString ("parsing time " ++ value ++ ": out of range"))
    | None => inr (errorString ("parsing time " ++ value
                                ++ ": cannot parse as " ++ layout))
    end
  else inr (errorString ("layout not mocked: " ++ layout)).

Definition pad (width : nat) (n : Z) : string :=
  zeros (width - String.length (itoa n)) ++ itoa n.

(** [t.Format] for the two layouts the program prints with. *)
Definition Format (t : Time) (layout : string) : string :=
  let unix := unixNano t / 1000000000 in
  let wall := unix + loc_offset (location t) unix in
  let '(year, month, day) := civil (wall / 86400) in
  let secs := wall mod 86400 in
  let date := pad 4 year ++ "-" ++ pad 2 month ++ "-" ++ pad 2 day in
  let hm := pad 2 (secs / 3600) ++ ":" ++ pad 2 (secs mod 3600 / 60) in
  if (layout =? "2006-01-02 15:04:05")%string
  then date ++ " " ++ hm ++ ":" ++ pad 2 (secs mod 60)
  else if (layout =? "2006-01-02 15:04")%string
  then date ++ " " ++ hm
  else layout.

(** *** The world: the clock reads [now]; the service answers every
    request with [answer]; a body decodes to [decoded]. *)
Definition world (now : Z) (answer : Response + error)
           (decoded : WeatherResponse + error) : World :=
  {| strconv_FormatFloat := FormatFloat;
     fmt_f := format_f;
     http_Get := fun _ => answer;
     json_Unmarshal := fun _ => decoded;
     time_LoadLocation := LoadLocation;
     time_Now := {| unixNano := now; location := UTC |};
     time_ParseInLocation := ParseInLocation;
     time_Format := Format |}.

(** A forecast of three days and eight hours for New York, by the
    hour from 2024-01-01T00:00. *)
Definition sample (timezone : string) : WeatherResponse :=
  {| Latitude := 40.710335%float;
     Longitude := (-73.99307)%float;
     Timezone := timezone;
     Hourly :=
       {| Hourly_Time :=
            ["2024-01-01T00:00"; "2024-01-01T01:00"; "2024-01-01T02:00";
             "2024-01-01T03:00"; "2024-01-01T04:00"; "2024-01-01T05:00";
             "2024-01-01T06:00"; "2024-01-01T07:00"];
          Hourly_Temperature2m :=
            [3.5; 3.1; 2.8; 2.25; 2.0; 1.7; 1.9; 2.6]%float;
          Hourly_PrecipitationProbability :=
            [0; 5; 10; 35; 60; 45; 20; 0]%float;
          Hourly_Precipitation :=
            [0; 0; 0; 0.1; 0.45; 0.2; 0; 0]%float |};
     Daily :=
       {| Daily_Time := ["2024-01-01"; "2024-01-02"; "2024-01-03"];
          Daily_Temperature2mMax := [6.4; 7.0; 4.95]%float;
          Daily_Temperature2mMin := [1.7; 0.3; (-1.2)]%float;
          Daily_PrecipitationSum := [0.75; 0; 12.3]%float;
          Daily_RainSum := [0.75; 0; 10.1]%float;
          Daily_PrecipitationHours := [3; 0; 9]%float;
          Daily_PrecipitationProbabilityMax := [60; 10; 95]%float;
          Daily_WindSpeed10mMax := [14.8; 9.2; 22.05]%float |} |}.

Definition ok : Response + error :=
  inl {| StatusCode := 200; Body_ReadAll := inl [] |}.


(** The instant of a timestamp in a zone, in nanoseconds. *)
Definition instant (value : string) (loc : Location) : Z :=
  match ParseInLocation "2006-01-02T15:04" value loc with
  | inl t => unixNano t
  | inr _ => 0
  end.

Definition no_flags : Flags :=
  {| flag_lat := None; flag_lon := None; flag_days := None |}.

Definition days_flag (n : Z) : Flags :=
  {| flag_lat := None; flag_lon := None; flag_days := Some n |}.

(** The service is up and serves [sample timezone]; the clock reads
    00:30 on 2024-01-01 in the zone [loc]. *)
Definition serving (timezone : string) (loc : Location) : World :=
  world (instant "2024-01-01T00:30" loc) ok (inl (sample timezone)).


End Mock.


(** * Further vocabulary *)

(** The URLs of the calls of [client.Get] in a run, in order. *)
Definition requests (tr : list event) : list string :=
  flat_map (fun e => match e with
                     | HttpGet url => [url]
                     | Stdout _ => []
                     end) tr.

Definition is_Stdout (e : event) : Prop :=
  match e with
  | Stdout _ => True
  | HttpGet _ => False
  end.

(** A computation that only writes to standard output, does not end
    the process, and fails, if it does, on a slice index. *)
Definition quiet {A : Type} (m : IO A) : Prop :=
  Forall is_Stdout (trace m)
  /\ (forall code, result m <> Exit code)
  /\ (forall reason, result m = Panic reason ->
                      reason = "index out of range").

(** Index [i] is inside every value sequence of the group. *)
Definition daily_covers (d : DailyData) (i : Z) : Prop :=
  i < len (Daily_Temperature2mMax d)
  /\ i < len (Daily_Temperature2mMin d)
  /\ i < len (Daily_PrecipitationSum d)
  /\ i < len (Daily_RainSum d)
  /\ i < len (Daily_PrecipitationHours d)
  /\ i < len (Daily_PrecipitationProbabilityMax d)
  /\ i < len (Daily_WindSpeed10mMax d).

Definition hourly_covers (h : HourlyData) (i : Z) : Prop :=
  i < len (Hourly_Temperature2m h)
  /\ i < len (Hourly_PrecipitationProbability h)
  /\ i < len (Hourly_Precipitation h).

(** The world [W] with its clock reading [now]. *)
Definition at_time (W : World) (now : Time) : World :=
  {| strconv_FormatFloat := strconv_FormatFloat W;
     fmt_f := fmt_f W;
     http_Get := http_Get W;
     json_Unmarshal := json_Unmarshal W;
     time_LoadLocation := time_LoadLocation W;
     time_Now := now;
     time_ParseInLocation := time_ParseInLocation W;
     time_Format := time_Format W |}.

(** The lines that [findCurrentHourIndex] writes (lines 85, 97, 103). *)
Definition current_line (W : World) (timezone : string) (loc : Location)
  : event :=
  Stdout ("Current time in " ++ timezone ++ ": "
          ++ time_Format W (Time_In (time_Now W) loc) "2006-01-02 15:04:05"
          ++ nl).

Definition found_line (W : World) (forecastTime : Time) (i : Z) : event :=
  Stdout ("Found next forecast time: "
          ++ time_Format W forecastTime "2006-01-02 15:04"
          ++ " (index " ++ itoa i ++ ")" ++ nl).

Definition none_line : event :=
  Stdout ("No future forecast times found, starting from beginning" ++ nl).

(** The entries that parse do so to instants that do not decrease
    along the sequence. *)
Definition ascending (W : World) (loc : Location) (hourlyTimes : list string)
  : Prop :=
  forall (j k : nat) sj sk tj tk,
    (j <= k)%nat ->
    nth_error hourlyTimes j = Some sj ->
    nth_error hourlyTimes k = Some sk ->
    time_ParseInLocation W "2006-01-02T15:04" sj loc = inl tj ->
    time_ParseInLocation W "2006-01-02T15:04" sk loc = inl tk ->
    unixNano tj <= unixNano tk.

(** A string of bytes that a query component keeps as they are. *)
Fixpoint plain (s : string) : bool :=
  match s with
  | EmptyString => true
  | String c rest => negb (shouldEscape c) && plain rest
  end.

(** The hourly loop of lines 182-193 without the guard of lines
    184-186. *)
Definition hourly_loop (W : World) (response : WeatherResponse) (s : Z)
  : IO unit :=
  print ("Hourly Forecast (next 5 hours):" ++ nl) ;;
  for_lt 0 (Z.min 5 (len (Hourly_Time (Hourly response)) - s))
         (fun j => main0_hourly_body W response (s + j)).
(** * Properties *)

(** ** Runs *)

Lemma bind_ret_l {A B : Type} (a : A) (f : A -> IO B) :
  bind (ret a) f = f a.
Proof. unfold bind, ret. destruct (f a). reflexivity. Qed.

Lemma bind_print {B : Type} (s : string) (k : unit -> IO B) :
  bind (print s) k = (Stdout s :: trace (k tt), result (k tt)).
Proof. unfold bind, print, trace, result. destruct (k tt). reflexivity. Qed.

Lemma bind_Return {A B : Type} (t : list event) (a : A) (f : A -> IO B) :
  bind (t, Return a) f = ((t ++ trace (f a))%list, result (f a)).
Proof. unfold bind, trace, result. destruct (f a). reflexivity. Qed.

Lemma IO_eta {A : Type} (m : IO A) : m = (trace m, result m).
Proof. destruct m. reflexivity. Qed.

(** A slice read inside its bounds returns the element. *)
Lemma index_in_range {A : Type} (s : list A) (i : Z) (d : A) :
  0 <= i < len s -> index s i = ret (nth (Z.to_nat i) s d).
Proof.
  intros Hi. unfold index, len in *.
  replace (0 <=? i) with true by (symmetry; apply Z.leb_le; lia).
  replace (i <? Z.of_nat (List.length s)) with true
    by (symmetry; apply Z.ltb_lt; lia).
  simpl. destruct (nth_error s (Z.to_nat i)) eqn:E.
  - now rewrite (nth_error_nth _ _ d E).
  - apply nth_error_None in E. lia.
Qed.

Lemma Zseq_S (lo : Z) (n : nat) : Zseq lo (S n) = lo :: Zseq (lo + 1) n.
Proof.
  unfold Zseq. simpl. rewrite Z.add_0_r. f_equal.
  rewrite <- seq_shift, map_map. apply map_ext. intros k. lia.
Qed.

Lemma Zseq_length (lo : Z) (n : nat) : List.length (Zseq lo n) = n.
Proof. unfold Zseq. now rewrite length_map, length_seq. Qed.

Lemma Zseq_In (lo : Z) (n : nat) (i : Z) :
  List.In i (Zseq lo n) <-> lo <= i < lo + Z.of_nat n.
Proof.
  unfold Zseq. rewrite in_map_iff. split.
  - intros [k [<- Hk]]. apply in_seq in Hk. lia.
  - intros Hi. exists (Z.to_nat (i - lo)). split; [lia|].
    apply in_seq. lia.
Qed.

(** A counted loop whose body neither breaks nor fails at any index it
    reaches runs the body at each index in order. *)
Lemma for_from_all (body : Z -> IO bool) (out : Z -> list event) :
  forall (n : nat) (lo : Z),
    (forall i, lo <= i < lo + Z.of_nat n -> body i = (out i, Return false)) ->
    for_from n lo body = (flat_map out (Zseq lo n), Return tt).
Proof.
  induction n as [|n IH]; intros lo Hbody.
  - reflexivity.
  - rewrite Zseq_S. simpl. rewrite Hbody by lia.
    rewrite bind_Return, IH by (intros i Hi; apply Hbody; lia).
    reflexivity.
Qed.

Lemma for_lt_all (body : Z -> IO bool) (out : Z -> list event) (lo hi : Z) :
  (forall i, lo <= i < hi -> body i = (out i, Return false)) ->
  for_lt lo hi body = (flat_map out (Zseq lo (Z.to_nat (hi - lo))), Return tt).
Proof.
  intros Hbody. unfold for_lt. apply for_from_all.
  intros i Hi. apply Hbody. lia.
Qed.

(** ** Forecast client *)

Lemma itoa_inj (n m : Z) : itoa n = itoa m -> n = m.
Proof.
  unfold itoa. intros H.
  apply (f_equal NilEmpty.int_of_string) in H.
  rewrite !NilEmpty.isi in H. injection H as H.
  now apply DecimalZ.to_int_inj.
Qed.


(** The request is sent whatever happens next, and nothing else is
    observable of [GetWeatherForecast]. *)
Lemma GetWeatherForecast_trace (W : World) (latitude longitude : float64) :
  trace (GetWeatherForecast W latitude longitude)
  = [HttpGet (fullURL W latitude longitude)].
Proof.
  unfold GetWeatherForecast, client_Get.
  rewrite bind_Return.
  destruct (http_Get W _) as [resp|err]; [|reflexivity].
  destruct (negb _); [reflexivity|].
  destruct (Body_ReadAll resp) as [body|err]; [|reflexivity].
  destruct (json_Unmarshal W body); reflexivity.
Qed.

Lemma GetWeatherForecast_result (W : World) (latitude longitude : float64) :
  result (GetWeatherForecast W latitude longitude)
  = Return match fetch_outcome W latitude longitude with
           | inl response => (Some response, None)
           | inr k => (None, Some (fetch_error k))
           end.
Proof.
  unfold GetWeatherForecast, client_Get, fetch_outcome.
  rewrite bind_Return.
  destruct (http_Get W _) as [resp|err]; [|reflexivity].
  destruct (StatusCode resp =? 200); simpl; [|reflexivity].
  destruct (Body_ReadAll resp) as [body|err]; [|reflexivity].
  destruct (json_Unmarshal W body); reflexivity.
Qed.



(** ** The three ways through [main] *)

Lemma GetWeatherForecast_run (W : World) (latitude longitude : float64) :
  GetWeatherForecast W latitude longitude
  = ([HttpGet (fullURL W latitude longitude)],
     Return match fetch_outcome W latitude longitude with
            | inl response => (Some response, None)
            | inr k => (None, Some (fetch_error k))
            end).
Proof.
  rewrite (IO_eta (GetWeatherForecast W latitude longitude)).
  now rewrite GetWeatherForecast_trace, GetWeatherForecast_result.
Qed.

Lemma main_notice (W : World) (flags : Flags) (k : unit -> IO unit) :
  bind (if NFlag flags =? 0 then
          print ("Using default location: New York City ("
                 ++ fmt_f W 2 defaultLat ++ ", " ++ fmt_f W 2 defaultLon
                 ++ ") and " ++ itoa defaultDays ++ " days" ++ nl) ;;
          print ("You can specify location and days with: -lat=<value> -lon=<value> -days=<value>"
                 ++ nl)
        else ret tt) k
  = ((notice W flags ++ trace (k tt))%list, result (k tt)).
Proof.
  unfold notice. destruct (NFlag flags =? 0).
  - unfold bind, print, trace, result. destruct (k tt). reflexivity.
  - rewrite bind_ret_l. apply IO_eta.
Qed.

(** A day count below 1 ends the run before the request. *)
Lemma main_with_invalid_days (W : World) hourly (flags : Flags) :
  days_of flags < 1 ->
  main_with W hourly flags = ((notice W flags ++ [days_error])%list, Exit 1).
Proof.
  intros Hd. unfold main_with. rewrite main_notice.
  fold (days_of flags).
  replace (days_of flags <? 1) with true by (symmetry; apply Z.ltb_lt; lia).
  reflexivity.
Qed.

(** A failed fetch ends the run after the request. *)
Lemma main_with_fetch_failed (W : World) hourly (flags : Flags)
      (k : FetchError) :
  1 <= days_of flags ->
  fetched W flags = inr k ->
  main_with W hourly flags
  = ((notice W flags
      ++ [HttpGet (request_of W flags); fetch_failure (fetch_error k)])%list,
     Exit 1).
Proof.
  intros Hd Hf. unfold main_with. rewrite main_notice.
  fold (days_of flags) (latitude_of flags) (longitude_of flags).
  replace (days_of flags <? 1) with false by (symmetry; apply Z.ltb_ge; lia).
  rewrite bind_ret_l, GetWeatherForecast_run.
  unfold fetched in Hf. rewrite Hf. reflexivity.
Qed.

(** After a successful fetch the run writes the header, then the daily
    summary, then the hourly one. *)
Lemma main_with_fetch_ok (W : World) hourly (flags : Flags)
      (response : WeatherResponse) :
  1 <= days_of flags ->
  fetched W flags = inl response ->
  main_with W hourly flags
  = ((notice W flags
      ++ [HttpGet (request_of W flags); header W response]
      ++ trace (main_daily W response (days_of flags) ;; hourly response))%list,
     result (main_daily W response (days_of flags) ;; hourly response)).
Proof.
  intros Hd Hf. unfold main_with. rewrite main_notice.
  fold (days_of flags) (latitude_of flags) (longitude_of flags).
  replace (days_of flags <? 1) with false by (symmetry; apply Z.ltb_ge; lia).
  rewrite bind_ret_l, GetWeatherForecast_run.
  unfold fetched in Hf. rewrite Hf.
  rewrite bind_Return. unfold trace at 2, result at 2.
  rewrite bind_print. reflexivity.
Qed.

(** ** The rendering loops *)

Ltac read_string :=
  rewrite (@index_in_range string _ _ "") by lia; rewrite bind_ret_l.

Ltac read_float :=
  rewrite (@index_in_range float64 _ _ 0%float) by lia; rewrite bind_ret_l.

(** Inside the bounds of every daily sequence the loop body writes the
    entry and goes on. *)
Lemma main_daily_body_ok (W : World) (response : WeatherResponse) (i : Z) :
  daily_aligned (Daily response) ->
  0 <= i < len (Daily_Time (Daily response)) ->
  main_daily_body W response i = (daily_entry W response i, Return false).
Proof.
  intros (H1 & H2 & H3 & H4 & H5 & H6 & H7) Hi.
  unfold main_daily_body, daily_entry. cbv zeta.
  read_string. rewrite bind_print.
  read_float. read_float. rewrite bind_print.
  read_float. read_float. rewrite bind_print.
  read_float. read_float. rewrite bind_print.
  read_float. rewrite bind_print.
  reflexivity.
Qed.

Lemma daysToShow_min (n days : Z) :
  (if n <? days then n else days) = Z.min days n.
Proof. destruct (Z.ltb_spec n days); lia. Qed.

Lemma main_daily_run (W : World) (response : WeatherResponse) (days : Z) :
  daily_aligned (Daily response) ->
  main_daily W response days
  = (flat_map (daily_entry W response)
              (Zseq 0 (Z.to_nat
                         (Z.min days (len (Daily_Time (Daily response)))))),
     Return tt).
Proof.
  intros Ha. unfold main_daily. rewrite daysToShow_min.
  rewrite (for_lt_all _ (daily_entry W response)).
  - now rewrite Z.sub_0_r.
  - intros i Hi. apply main_daily_body_ok; [assumption | lia].
Qed.

(** Inside the bounds of every hourly sequence the loop body writes the
    entry and goes on. *)
Lemma main_hourly_body_ok (W : World) (response : WeatherResponse)
      (currentIndex j : Z) :
  hourly_aligned (Hourly response) ->
  0 <= currentIndex + j < len (Hourly_Time (Hourly response)) ->
  main_hourly_body W response currentIndex j
  = ([hourly_entry W response (currentIndex + j)], Return false).
Proof.
  intros (H1 & H2 & H3) Hi.
  unfold main_hourly_body, hourly_entry. cbv zeta.
  replace (currentIndex + j >=? len (Hourly_Time (Hourly response)))
    with false by (symmetry; rewrite Z.geb_leb; apply Z.leb_gt; lia).
  read_string. read_float. read_float. read_float.
  rewrite bind_print. reflexivity.
Qed.

Lemma hoursToPrint_min (s n : Z) :
  (if s + 5 >? n then n - s else 5) = Z.min 5 (n - s).
Proof. rewrite Z.gtb_ltb. destruct (Z.ltb_spec n (s + 5)); lia. Qed.

Lemma flat_map_singleton {A B : Type} (f : A -> B) (l : list A) :
  flat_map (fun x => [f x]) l = map f l.
Proof. induction l; simpl; congruence. Qed.

Lemma map_Zseq_shift {B : Type} (f : Z -> B) (s : Z) (n : nat) :
  map (fun j => f (s + j)) (Zseq 0 n) = map f (Zseq s n).
Proof.
  unfold Zseq. rewrite !map_map. apply map_ext. intros k.
  now rewrite Z.add_0_l.
Qed.

Lemma main_hourly_from_run (W : World) (response : WeatherResponse)
      (s : Z) :
  hourly_aligned (Hourly response) ->
  0 <= s ->
  main_hourly_from W response s
  = (hourly_header
       :: map (hourly_entry W response)
              (Zseq s (Z.to_nat
                         (Z.max 0 (Z.min 5 (len (Hourly_Time (Hourly response))
                                            - s))))),
     Return tt).
Proof.
  intros Ha Hs. unfold main_hourly_from. rewrite bind_print.
  rewrite hoursToPrint_min.
  rewrite (for_lt_all _ (fun j => [hourly_entry W response (s + j)])).
  - unfold trace, result, hourly_header. simpl fst. simpl snd.
    rewrite Z.sub_0_r.
    rewrite (flat_map_singleton (fun j => hourly_entry W response (s + j))).
    rewrite map_Zseq_shift.
    replace (Z.to_nat (Z.max 0 (Z.min 5 (len (Hourly_Time (Hourly response)) - s))))
      with (Z.to_nat (Z.min 5 (len (Hourly_Time (Hourly response)) - s)))
      by lia.
    reflexivity.
  - intros j Hj. apply main_hourly_body_ok; [assumption | lia].
Qed.

Lemma main0_hourly_run (W : World) (response : WeatherResponse) :
  hourly_aligned (Hourly response) ->
  main0_hourly W response
  = (hourly_header
       :: map (hourly_entry W response)
              (Zseq 0 (Z.to_nat
                         (Z.max 0 (Z.min 5 (len (Hourly_Time (Hourly response))
                                            - 0))))),
     Return tt).
Proof.
  intros (H1 & H2 & H3). unfold main0_hourly. rewrite bind_print.
  rewrite daysToShow_min.
  rewrite (for_lt_all _ (fun j => [hourly_entry W response j])).
  - unfold trace, result, hourly_header. simpl fst. simpl snd.
    rewrite (flat_map_singleton (hourly_entry W response)).
    rewrite !Z.sub_0_r.
    replace (Z.to_nat (Z.max 0 (Z.min 5 (len (Hourly_Time (Hourly response))))))
      with (Z.to_nat (Z.min 5 (len (Hourly_Time (Hourly response))))) by lia.
    reflexivity.
  - intros j Hj. unfold main0_hourly_body, hourly_entry. cbv zeta.
    read_string. read_float. read_float. read_float.
    rewrite bind_print. reflexivity.
Qed.

(** ** The scan for the current hour *)

Section Scan.

Variable W : World.
Variable loc : Location.
Variable now : Time.

Lemma future_After (s : string) (t : Time) :
  time_ParseInLocation W "2006-01-02T15:04" s loc = inl t ->
  (After t now = true <-> future W loc now s).
Proof.
  intros Hp. unfold After, future. rewrite Z.ltb_lt. split.
  - intros Hlt. now exists t.
  - intros [t' [Hp' Hlt]]. congruence.
Qed.

Lemma unparseable_not_future (s : string) :
  unparseable W loc s -> ~ future W loc now s.
Proof. intros [e He] [t [Ht _]]. congruence. Qed.

(** The loop always comes to an end; it returns the first index whose
    entry is in the future, or runs out when there is none. *)
Lemma scanHours_spec (l : list string) : forall i0 : Z,
  exists tr r,
    scanHours W loc now i0 l = (tr, Return r)
    /\ match r with
       | Some i =>
           i0 <= i < i0 + len l
           /\ (exists s, nth_error l (Z.to_nat (i - i0)) = Some s
                         /\ future W loc now s)
           /\ (forall j s, i0 <= j < i ->
                           nth_error l (Z.to_nat (j - i0)) = Some s ->
                           ~ future W loc now s)
       | None => forall s, List.In s l -> ~ future W loc now s
       end.
Proof.
  induction l as [|timeStr rest IH]; intros i0.
  - exists [], None. split; [reflexivity|]. intros s [].
  - assert (Hlen : len (timeStr :: rest) = len rest + 1)
      by (unfold len; simpl List.length; lia).
    assert (Hskip : ~ future W loc now timeStr ->
      exists tr r,
        scanHours W loc now (i0 + 1) rest = (tr, Return r)
        /\ match r with
           | Some i =>
               i0 <= i < i0 + len (timeStr :: rest)
               /\ (exists s, nth_error (timeStr :: rest) (Z.to_nat (i - i0))
                             = Some s /\ future W loc now s)
               /\ (forall j s, i0 <= j < i ->
                     nth_error (timeStr :: rest) (Z.to_nat (j - i0)) = Some s ->
                     ~ future W loc now s)
           | None => forall s, List.In s (timeStr :: rest) ->
                               ~ future W loc now s
           end).
    { intros Hnf. destruct (IH (i0 + 1)) as (tr & r & Hrun & Hr).
      exists tr, r. split; [exact Hrun|].
      destruct r as [i|].
      - destruct Hr as (Hi & (s & Hs & Hf) & Hbefore).
        split; [lia|]. split.
        + exists s. split; [|exact Hf].
          replace (Z.to_nat (i - i0)) with (S (Z.to_nat (i - (i0 + 1))))
            by lia.
          exact Hs.
        + intros j s' Hj Hnth.
          destruct (Z.eq_dec j i0) as [->|Hne].
          * rewrite Z.sub_diag in Hnth. simpl in Hnth.
            injection Hnth as <-. exact Hnf.
          * apply (Hbefore j s'); [lia|].
            replace (Z.to_nat (j - i0)) with (S (Z.to_nat (j - (i0 + 1))))
              in Hnth by lia.
            exact Hnth.
      - intros s [<-|Hin]; [exact Hnf | now apply Hr]. }
    simpl scanHours.
    destruct (time_ParseInLocation W "2006-01-02T15:04" timeStr loc)
      as [forecastTime|e] eqn:Hp.
    + destruct (After forecastTime now) eqn:Ha.
      * eexists _, (Some i0). split; [reflexivity|].
        split; [unfold len in *; lia|]. split.
        -- exists timeStr. rewrite Z.sub_diag. split; [reflexivity|].
           now apply (future_After _ Hp).
        -- intros j s Hj. lia.
      * apply Hskip. intros Hf. apply (future_After _ Hp) in Hf. congruence.
    + apply Hskip. apply unparseable_not_future. now exists e.
Qed.

(** Entries that do not parse are passed over: nothing is written and
    the scan goes on at the entry behind them. *)
Lemma scanHours_skip (pre rest : list string) : forall i0 : Z,
  Forall (unparseable W loc) pre ->
  scanHours W loc now i0 (pre ++ rest)%list
  = scanHours W loc now (i0 + len pre) rest.
Proof.
  induction pre as [|s pre IH]; intros i0 Hpre.
  - simpl. now rewrite Z.add_0_r.
  - inversion Hpre as [|? ? [e He] Hpre']; subst.
    simpl. rewrite He, IH by assumption.
    f_equal. unfold len. simpl List.length. lia.
Qed.

End Scan.

Lemma findCurrentHourIndex_unresolved (W : World) (hourlyTimes : list string)
      (timezone : string) (err : error) :
  time_LoadLocation W timezone = inr err ->
  findCurrentHourIndex W hourlyTimes timezone
  = ([], Return (0, Some (Errorf_w ("error loading timezone " ++ timezone
                                    ++ ": ") err))).
Proof. intros H. unfold findCurrentHourIndex. now rewrite H. Qed.

Lemma findCurrentHourIndex_resolved (W : World) (hourlyTimes : list string)
      (timezone : string) (loc : Location) :
  time_LoadLocation W timezone = inl loc ->
  exists tr i,
    findCurrentHourIndex W hourlyTimes timezone = (tr, Return (i, None))
    /\ (first_future W loc (time_Now W) hourlyTimes i
        \/ (no_future W loc (time_Now W) hourlyTimes /\ i = 0)).
Proof.
  intros H. unfold findCurrentHourIndex. rewrite H.
  destruct (scanHours_spec W loc (Time_In (time_Now W) loc) hourlyTimes 0)
    as (tr & r & Hrun & Hr).
  rewrite bind_print, Hrun, bind_Return.
  destruct r as [i|].
  - eexists _, i. split; [reflexivity|]. left.
    destruct Hr as (Hi & (s & Hs & Hf) & Hbefore).
    rewrite Z.sub_0_r in Hs. split; [lia|]. split.
    + now exists s.
    + intros j s' Hj Hnth. apply (Hbefore j s'); [lia|].
      now rewrite Z.sub_0_r.
  - eexists _, 0. split; [reflexivity|]. right. split; [exact Hr|reflexivity].
Qed.

(** The index that comes back is one of the sequence, or 0. *)
Lemma findCurrentHourIndex_range (W : World) (hourlyTimes : list string)
      (timezone : string) :
  exists tr i e,
    findCurrentHourIndex W hourlyTimes timezone = (tr, Return (i, e))
    /\ (i = 0 \/ 0 <= i < len hourlyTimes).
Proof.
  destruct (time_LoadLocation W timezone) as [loc|err] eqn:H.
  - destruct (findCurrentHourIndex_resolved W hourlyTimes timezone H)
      as (tr & i & Hrun & [Hf|[_ ->]]).
    + exists tr, i, None. split; [exact Hrun|]. right. apply Hf.
    + exists tr, 0, None. split; [exact Hrun|]. now left.
  - rewrite (findCurrentHourIndex_unresolved W hourlyTimes timezone H).
    eexists _, 0, _. split; [reflexivity|]. now left.
Qed.

Lemma append_assoc (a b c : string) : (a ++ b) ++ c = a ++ b ++ c.
Proof. induction a as [|x a IH]; simpl; [reflexivity | now rewrite IH]. Qed.

Lemma length_append (a b : string) :
  String.length (a ++ b) = (String.length a + String.length b)%nat.
Proof. induction a as [|x a IH]; simpl; [reflexivity | now rewrite IH]. Qed.

Lemma Encode_pair_first (keyEscaped value : string) :
  Encode_pair keyEscaped "" value = keyEscaped ++ "=" ++ QueryEscape value.
Proof. reflexivity. Qed.

(** A buffer that holds a pair is not empty: the next pair comes after
    a [&]. *)
Lemma Encode_pair_next (keyEscaped keyEscaped' buf value value' : string) :
  Encode_pair keyEscaped' (Encode_pair keyEscaped buf value) value'
  = Encode_pair keyEscaped buf value
    ++ "&" ++ keyEscaped' ++ "=" ++ QueryEscape value'.
Proof.
  unfold Encode_pair at 1. cbv zeta.
  replace (0 <? Z.of_nat (String.length (Encode_pair keyEscaped buf value)))
    with true.
  - now rewrite append_assoc.
  - symmetry. apply Z.ltb_lt. unfold Encode_pair. cbv zeta.
    rewrite !length_append. simpl String.length. lia.
Qed.

(** * The claims *)

(** ** Forecast client *)

(** C8: for every latitude and longitude, [GetWeatherForecast] sends
    one GET request to the fixed base endpoint; its query holds exactly
    the five parameters [latitude] and [longitude] (formatted by
    [strconv.FormatFloat] with format ['f'] and precision [-1], the
    shortest decimal that reads back as the same float), [hourly],
    [daily] (the two fixed comma-joined lists) and [timezone = auto],
    which [Encode] writes sorted by key and escaped. *)
Theorem C8_request_parameters (W : World) (latitude longitude : float64) :
  let lat := strconv_FormatFloat W latitude "f" (-1) 64 in
  let lon := strconv_FormatFloat W longitude "f" (-1) 64 in
  params W latitude longitude
  = [ ("latitude", [lat]);
      ("longitude", [lon]);
      ("hourly", ["temperature_2m,precipitation_probability,precipitation"]);
      ("daily", ["temperature_2m_max,temperature_2m_min,precipitation_sum,rain_sum,precipitation_hours,precipitation_probability_max,wind_speed_10m_max"]);
      ("timezone", ["auto"]) ]
  /\ fullURL W latitude longitude
     = "https://api.open-meteo.com/v1/forecast?"
       ++ "daily=temperature_2m_max%2Ctemperature_2m_min%2Cprecipitation_sum%2Crain_sum%2Cprecipitation_hours%2Cprecipitation_probability_max%2Cwind_speed_10m_max"
       ++ "&hourly=temperature_2m%2Cprecipitation_probability%2Cprecipitation"
       ++ "&latitude=" ++ QueryEscape lat
       ++ "&longitude=" ++ QueryEscape lon
       ++ "&timezone=auto"
  /\ trace (GetWeatherForecast W latitude longitude)
     = [HttpGet (fullURL W latitude longitude)].
Proof.
  intros lat lon. split; [reflexivity|]. split.
  - unfold fullURL, baseURL.
    change (params W latitude longitude)
      with [ ("latitude", [lat]); ("longitude", [lon]);
             ("hourly", ["temperature_2m,precipitation_probability,precipitation"]);
             ("daily", ["temperature_2m_max,temperature_2m_min,precipitation_sum,rain_sum,precipitation_hours,precipitation_probability_max,wind_speed_10m_max"]);
             ("timezone", ["auto"]) ].
    unfold Values_Encode.
    change (slices_Sort _)
      with ["daily"; "hourly"; "latitude"; "longitude"; "timezone"].
    cbn [fold_left].
    change (Values_lookup _ "daily")
      with ["temperature_2m_max,temperature_2m_min,precipitation_sum,rain_sum,precipitation_hours,precipitation_probability_max,wind_speed_10m_max"].
    change (Values_lookup _ "hourly")
      with ["temperature_2m,precipitation_probability,precipitation"].
    change (Values_lookup _ "latitude") with [lat].
    change (Values_lookup _ "longitude") with [lon].
    change (Values_lookup _ "timezone") with ["auto"].
    cbn [fold_left].
    rewrite !Encode_pair_next, Encode_pair_first, !append_assoc.
    reflexivity.
  - apply GetWeatherForecast_trace.
Qed.

(** The request of a run with no flags, as the mocked library
    formats the default coordinates. *)
Example default_request :
  request_of (Mock.serving "UTC" Mock.UTC) Mock.no_flags
  = "https://api.open-meteo.com/v1/forecast?daily=temperature_2m_max%2Ctemperature_2m_min%2Cprecipitation_sum%2Crain_sum%2Cprecipitation_hours%2Cprecipitation_probability_max%2Cwind_speed_10m_max&hourly=temperature_2m%2Cprecipitation_probability%2Cprecipitation&latitude=40.71&longitude=-74.01&timezone=auto".
Proof. vm_compute. reflexivity. Qed.



(** ** Validation of the day count *)

(** C7: with a day count below 1, [main] writes the error, ends with
    exit status 1 and makes no request; a run that makes a request has
    a day count of at least 1, and every run with a day count of at
    least 1 makes the request. *)
Theorem C7_days_validation (W : World) (flags : Flags) :
  days_of flags < 1 ->
  main W flags = ((notice W flags ++ [days_error])%list, Exit 1)
  /\ (forall url, ~ List.In (HttpGet url) (trace (main W flags)))
  /\ (forall flags' url,
        List.In (HttpGet url) (trace (main W flags')) ->
        1 <= days_of flags')
  /\ (forall flags',
        1 <= days_of flags' ->
        List.In (HttpGet (request_of W flags')) (trace (main W flags'))).
Proof.
  intros Hd.
  assert (Hnotice : forall f url, ~ List.In (HttpGet url) (notice W f)).
  { intros f url. unfold notice.
    destruct (NFlag f =? 0); simpl; intuition discriminate. }
  assert (Hnone : forall f url,
             days_of f < 1 -> ~ List.In (HttpGet url) (trace (main W f))).
  { intros f url Hf. unfold main. rewrite main_with_invalid_days by exact Hf.
    unfold trace. simpl fst. rewrite in_app_iff. intros [Hin|Hin].
    - exact (Hnotice f url Hin).
    - unfold days_error in Hin. simpl in Hin. intuition discriminate. }
  split; [unfold main; now apply main_with_invalid_days|].
  split; [intros url; now apply Hnone|].
  split.
  - intros flags' url Hin.
    destruct (Z.lt_ge_cases (days_of flags') 1) as [Hlt|Hge]; [|exact Hge].
    exfalso. exact (Hnone flags' url Hlt Hin).
  - intros flags' Hge. unfold main.
    destruct (fetched W flags') as [response|k] eqn:Hf.
    + rewrite (main_with_fetch_ok _ _ _ Hge Hf). unfold trace at 1.
      simpl fst. rewrite in_app_iff. right. now left.
    + rewrite (main_with_fetch_failed _ _ _ Hge Hf). unfold trace.
      simpl fst. rewrite in_app_iff. right. now left.
Qed.

(** C7 at [-days=0]. *)
Lemma C7_witness :
  days_of (Mock.days_flag 0) < 1
  /\ main (Mock.serving "UTC" Mock.UTC) (Mock.days_flag 0)
     = ([Stdout ("Error: Days must be at least 1" ++ nl)], Exit 1).
Proof.
  assert (H : days_of (Mock.days_flag 0) < 1) by reflexivity.
  split; [exact H|].
  exact (proj1 (C7_days_validation (Mock.serving "UTC" Mock.UTC)
                                   (Mock.days_flag 0) H)).
Defined.

(** ** Locating the current hour *)

(** C10: [findCurrentHourIndex] always returns, and the error it
    returns is non-nil exactly when the time zone does not resolve;
    once the zone resolves the error is nil for every sequence. *)
Theorem C10_error_iff_unresolved (W : World) (hourlyTimes : list string)
        (timezone : string) :
  exists tr i e,
    findCurrentHourIndex W hourlyTimes timezone = (tr, Return (i, e))
    /\ (e <> None <-> exists err, time_LoadLocation W timezone = inr err)
    /\ (forall loc, time_LoadLocation W timezone = inl loc -> e = None).
Proof.
  destruct (time_LoadLocation W timezone) as [loc|err] eqn:H.
  - destruct (findCurrentHourIndex_resolved W hourlyTimes timezone H)
      as (tr & i & Hrun & _).
    exists tr, i, None. split; [exact Hrun|]. split.
    + split; [congruence|]. intros [err Herr]. discriminate.
    + reflexivity.
  - rewrite (findCurrentHourIndex_unresolved W hourlyTimes timezone H).
    eexists _, _, _. split; [reflexivity|]. split.
    + split; [intros _; now exists err | discriminate].
    + intros loc Hloc. discriminate.
Qed.

(** C1: once the time zone resolves, for every sequence of timestamps
    and every reading of the clock, [findCurrentHourIndex] returns a
    nil error and an index [i] such that either entry [i] parses to an
    instant strictly after the clock's and no entry before it does, or
    no entry parses to an instant after the clock's and [i] is 0; on
    the empty sequence it returns 0 and a nil error. *)
Theorem C1_first_future_or_zero (W : World) (hourlyTimes : list string)
        (timezone : string) (loc : Location) :
  time_LoadLocation W timezone = inl loc ->
  (exists i,
      result (findCurrentHourIndex W hourlyTimes timezone) = Return (i, None)
      /\ (first_future W loc (time_Now W) hourlyTimes i
          \/ (no_future W loc (time_Now W) hourlyTimes /\ i = 0)))
  /\ result (findCurrentHourIndex W [] timezone) = Return (0, None).
Proof.
  intros H. split.
  - destruct (findCurrentHourIndex_resolved W hourlyTimes timezone H)
      as (tr & i & Hrun & Hi).
    exists i. rewrite Hrun. split; [reflexivity | exact Hi].
  - unfold findCurrentHourIndex. rewrite H. reflexivity.
Qed.

(** C1 at the mocked library: eight hourly entries from midnight, the
    clock at 00:30 in Tokyo. *)
Lemma C1_witness :
  let W := Mock.serving "Asia/Tokyo" (Mock.fixedZone "Asia/Tokyo" 32400) in
  time_LoadLocation W "Asia/Tokyo" = inl (Mock.fixedZone "Asia/Tokyo" 32400)
  /\ exists i,
      result (findCurrentHourIndex
                W (Hourly_Time (Hourly (Mock.sample "Asia/Tokyo")))
                "Asia/Tokyo")
      = Return (i, None).
Proof.
  intros W.
  assert (H : time_LoadLocation W "Asia/Tokyo"
              = inl (Mock.fixedZone "Asia/Tokyo" 32400)) by reflexivity.
  split; [exact H|].
  destruct (C1_first_future_or_zero
              W (Hourly_Time (Hourly (Mock.sample "Asia/Tokyo"))) _ H)
    as [[i [Hi _]] _].
  exists i. exact Hi.
Defined.

(** The same run, evaluated: the entry of 01:00 is the first after
    00:30. *)
Example locate_sample :
  let W := Mock.serving "Asia/Tokyo" (Mock.fixedZone "Asia/Tokyo" 32400) in
  findCurrentHourIndex W (Hourly_Time (Hourly (Mock.sample "Asia/Tokyo")))
                       "Asia/Tokyo"
  = ([Stdout ("Current time in Asia/Tokyo: 2024-01-01 00:30:00" ++ nl);
      Stdout ("Found next forecast time: 2024-01-01 01:00 (index 1)" ++ nl)],
     Return (1, None)).
Proof. vm_compute. reflexivity. Qed.

(** C3: an entry that fails to parse is passed over, the scan going on
    at the next index, and so is any run of such entries; on
    [["bad"; "2024-01-01T00:00"; "2024-01-01T01:00"]], with the clock
    at the instant of [2024-01-01T00:30] in the zone, the first entry
    failing to parse and the instants of the other two lying as their
    wall-clock times do, the index returned is 2. *)
Theorem C3_skips_unparseable (W : World) (timezone : string)
        (loc : Location) :
  time_LoadLocation W timezone = inl loc ->
  let now := Time_In (time_Now W) loc in
  let parse s := time_ParseInLocation W "2006-01-02T15:04" s loc in
  (forall bad rest i,
      unparseable W loc bad ->
      scanHours W loc now i (bad :: rest) = scanHours W loc now (i + 1) rest)
  /\ (forall pre rest i,
        Forall (unparseable W loc) pre ->
        scanHours W loc now i (pre ++ rest)%list
        = scanHours W loc now (i + len pre) rest)
  /\ (forall e t0 t1 tnow,
        parse "bad" = inr e ->
        parse "2024-01-01T00:00" = inl t0 ->
        parse "2024-01-01T01:00" = inl t1 ->
        parse "2024-01-01T00:30" = inl tnow ->
        unixNano (time_Now W) = unixNano tnow ->
        unixNano t0 <= unixNano tnow < unixNano t1 ->
        result (findCurrentHourIndex
                  W ["bad"; "2024-01-01T00:00"; "2024-01-01T01:00"] timezone)
        = Return (2, None)).
Proof.
  intros H now parse. split; [|split].
  - intros bad rest i [e He]. simpl. now rewrite He.
  - intros pre rest i Hpre. now apply scanHours_skip.
  - intros e t0 t1 tnow Hbad H0 H1 Hnow Hclock [Hle Hlt].
    unfold findCurrentHourIndex. rewrite H. unfold parse in *.
    simpl scanHours. rewrite Hbad, H0, H1.
    replace (After t0 (Time_In (time_Now W) loc)) with false
      by (symmetry; unfold After; simpl; apply Z.ltb_ge; lia).
    replace (After t1 (Time_In (time_Now W) loc)) with true
      by (symmetry; unfold After; simpl; apply Z.ltb_lt; lia).
    reflexivity.
Qed.

(** C3 at the mocked library, in the zone of Phoenix. *)
Lemma C3_witness :
  let loc := Mock.fixedZone "America/Phoenix" (-25200) in
  let W := Mock.serving "America/Phoenix" loc in
  time_LoadLocation W "America/Phoenix" = inl loc
  /\ result (findCurrentHourIndex
               W ["bad"; "2024-01-01T00:00"; "2024-01-01T01:00"]
               "America/Phoenix")
     = Return (2, None).
Proof.
  intros loc W.
  assert (H : time_LoadLocation W "America/Phoenix" = inl loc)
    by reflexivity.
  split; [exact H|].
  destruct (C3_skips_unparseable W "America/Phoenix" H) as (_ & _ & Hex).
  refine (Hex (errorString "parsing time bad: cannot parse as 2006-01-02T15:04")
              (Mock.Date 2024 1 1 0 0 loc) (Mock.Date 2024 1 1 1 0 loc)
              (Mock.Date 2024 1 1 0 30 loc) _ _ _ _ _ _);
    try reflexivity.
  vm_compute. split; [discriminate | reflexivity].
Defined.

(** What [main_hourly] does with the answer of
    [findCurrentHourIndex]. *)
Lemma main_hourly_run (W : World) (response : WeatherResponse)
      (tr : list event) (s : Z) (e : option error) :
  findCurrentHourIndex W (Hourly_Time (Hourly response)) (Timezone response)
  = (tr, Return (s, e)) ->
  main_hourly W response
  = ((tr ++ match e with Some err => [warning err] | None => [] end
         ++ trace (main_hourly_from W response s))%list,
     result (main_hourly_from W response s))
  /\ 0 <= s.
Proof.
  intros Hrun. unfold main_hourly.
  destruct (time_LoadLocation W (Timezone response)) as [loc|err] eqn:H.
  - destruct (findCurrentHourIndex_resolved
                W (Hourly_Time (Hourly response)) (Timezone response) H)
      as (tr' & i & Hrun' & Hi).
    rewrite Hrun' in Hrun. injection Hrun as <- <- <-.
    rewrite Hrun', bind_Return, bind_ret_l. split; [reflexivity|].
    destruct Hi as [Hf|[_ ->]]; [apply Hf | lia].
  - rewrite (findCurrentHourIndex_unresolved _ _ _ H) in Hrun.
    injection Hrun as <- <- <-.
    rewrite (findCurrentHourIndex_unresolved _ _ _ H).
    split; [|lia].
    unfold warning, bind, print, ret, trace, result.
    destruct (main_hourly_from W response 0). reflexivity.
Qed.

(** C4: when the time zone does not resolve, [findCurrentHourIndex]
    returns index 0 with a non-nil error that wraps the library's, and
    [main] goes on: it writes the warning and renders the hourly
    summary from index 0; with well-formed data the run returns
    normally. *)
Theorem C4_timezone_error_is_not_fatal (W : World) (timezone : string)
        (err : error) :
  time_LoadLocation W timezone = inr err ->
  let tzerr :=
    Errorf_w ("error loading timezone " ++ timezone ++ ": ") err in
  (forall hourlyTimes,
      findCurrentHourIndex W hourlyTimes timezone
      = ([], Return (0, Some tzerr)))
  /\ Unwrap tzerr = Some err
  /\ (forall response,
        Timezone response = timezone ->
        main_hourly W response
        = (warning tzerr :: trace (main_hourly_from W response 0),
           result (main_hourly_from W response 0)))
  /\ (forall response,
        Timezone response = timezone ->
        hourly_aligned (Hourly response) ->
        main_hourly W response
        = (warning tzerr :: hourly_header
             :: map (hourly_entry W response)
                    (Zseq 0 (Z.to_nat
                               (Z.max 0 (Z.min 5 (len (Hourly_Time
                                                         (Hourly response))
                                                  - 0))))),
           Return tt))
  /\ (forall flags response,
        Timezone response = timezone ->
        1 <= days_of flags ->
        fetched W flags = inl response ->
        aligned response ->
        result (main W flags) = Return tt
        /\ List.In (warning tzerr) (trace (main W flags))).
Proof.
  intros H tzerr.
  assert (Hfind : forall hourlyTimes,
             findCurrentHourIndex W hourlyTimes timezone
             = ([], Return (0, Some tzerr)))
    by (intros; now apply findCurrentHourIndex_unresolved).
  assert (Hhourly : forall response,
             Timezone response = timezone ->
             main_hourly W response
             = (warning tzerr :: trace (main_hourly_from W response 0),
                result (main_hourly_from W response 0))).
  { intros response Htz.
    destruct (@main_hourly_run W response [] 0 (Some tzerr)) as [Hrun _].
    - rewrite Htz. apply Hfind.
    - exact Hrun. }
  assert (Haligned : forall response,
             Timezone response = timezone ->
             hourly_aligned (Hourly response) ->
             main_hourly W response
             = (warning tzerr :: hourly_header
                  :: map (hourly_entry W response)
                       (Zseq 0 (Z.to_nat
                                  (Z.max 0 (Z.min 5 (len (Hourly_Time
                                                            (Hourly response))
                                                     - 0))))),
                Return tt)).
  { intros response Htz Ha. rewrite (Hhourly response Htz).
    now rewrite main_hourly_from_run by (assumption || lia). }
  split; [exact Hfind|]. split; [reflexivity|].
  split; [exact Hhourly|]. split; [exact Haligned|].
  intros flags response Htz Hd Hf [Hh Hdaily].
  unfold main. rewrite (main_with_fetch_ok _ _ _ Hd Hf).
  rewrite (main_daily_run _ _ _ Hdaily), bind_Return.
  rewrite (Haligned response Htz Hh).
  unfold trace, result. simpl fst. simpl snd. split; [reflexivity|].
  apply in_or_app. right. right. right.
  apply in_or_app. right. now left.
Qed.

(** C4 at the mocked library, which knows no zone [Mars/Olympus]. *)
Lemma C4_witness :
  let W := Mock.serving "Mars/Olympus" Mock.UTC in
  time_LoadLocation W "Mars/Olympus"
  = inr (errorString "unknown time zone Mars/Olympus")
  /\ findCurrentHourIndex W (Hourly_Time (Hourly (Mock.sample "Mars/Olympus")))
                          "Mars/Olympus"
     = ([], Return (0, Some (Errorf_w "error loading timezone Mars/Olympus: "
                               (errorString "unknown time zone Mars/Olympus"))))
  /\ result (main W (Mock.days_flag 2)) = Return tt.
Proof.
  intros W.
  assert (H : time_LoadLocation W "Mars/Olympus"
              = inr (errorString "unknown time zone Mars/Olympus"))
    by reflexivity.
  split; [exact H|].
  destruct (C4_timezone_error_is_not_fatal W "Mars/Olympus" H)
    as (Hfind & _ & _ & _ & Hmain).
  split; [apply Hfind|].
  refine (proj1 (Hmain (Mock.days_flag 2) (Mock.sample "Mars/Olympus")
                       eq_refl _ eq_refl _)).
  - vm_compute. discriminate.
  - repeat split.
Defined.

(** The whole run of C4's witness, as it appears on the terminal. *)
Example unresolved_zone_run :
  main (Mock.serving "Mars/Olympus" Mock.UTC) (Mock.days_flag 1)
  = ([HttpGet "https://api.open-meteo.com/v1/forecast?daily=temperature_2m_max%2Ctemperature_2m_min%2Cprecipitation_sum%2Crain_sum%2Cprecipitation_hours%2Cprecipitation_probability_max%2Cwind_speed_10m_max&hourly=temperature_2m%2Cprecipitation_probability%2Cprecipitation&latitude=40.71&longitude=-74.01&timezone=auto";
      Stdout ("Weather for: 40.7103, -73.9931 - Timezone: Mars/Olympus" ++ nl);
      Stdout ("Today (2024-01-01):" ++ nl);
      Stdout ("  Temperature: 1.7°C to 6.4°C" ++ nl);
      Stdout ("  Precipitation: 0.8 mm (probability: 60.0%)" ++ nl);
      Stdout ("  Rain: 0.8 mm - Precipitation Hours: 3.0" ++ nl);
      Stdout ("  Max Wind Speed: 14.8 km/h" ++ nl ++ nl);
      Stdout ("Warning: Could not determine current time, showing from beginning: error loading timezone Mars/Olympus: unknown time zone Mars/Olympus" ++ nl);
      Stdout ("Hourly Forecast (next 5 hours):" ++ nl);
      Stdout ("  2024-01-01T00:00: 3.5°C, Precipitation: 0.0 mm (0.0% probability)" ++ nl);
      Stdout ("  2024-01-01T01:00: 3.1°C, Precipitation: 0.0 mm (5.0% probability)" ++ nl);
      Stdout ("  2024-01-01T02:00: 2.8°C, Precipitation: 0.0 mm (10.0% probability)" ++ nl);
      Stdout ("  2024-01-01T03:00: 2.2°C, Precipitation: 0.1 mm (35.0% probability)" ++ nl);
      Stdout ("  2024-01-01T04:00: 2.0°C, Precipitation: 0.5 mm (60.0% probability)" ++ nl)],
     Return tt).
Proof. vm_compute. reflexivity. Qed.

(** ** The two summaries *)

(** With hourly sequences of one length the hourly part returns. *)
Lemma main_hourly_returns (W : World) (response : WeatherResponse) :
  hourly_aligned (Hourly response) ->
  result (main_hourly W response) = Return tt.
Proof.
  intros Ha.
  destruct (findCurrentHourIndex_range
              W (Hourly_Time (Hourly response)) (Timezone response))
    as (tr & i & e & Hrun & _).
  destruct (main_hourly_run W response Hrun) as [Hmain Hs].
  now rewrite Hmain, main_hourly_from_run.
Qed.

Lemma len_Zseq (lo : Z) (n : nat) : len (Zseq lo n) = Z.of_nat n.
Proof. unfold len. now rewrite Zseq_length. Qed.

(** C2: for the index [s] that [findCurrentHourIndex] returned and
    hourly sequences of one length, the hourly summary is the header
    followed by the entries at [s], [s+1], ... in order,
    [max(0, min(5, len(hourly.time) - s))] of them, all inside the
    sequence; this is what [main_hourly] writes after the lines of the
    search.  The earlier program renders the same window from [s = 0]. *)
Theorem C2_hourly_window (W : World) (response : WeatherResponse)
        (tr : list event) (s : Z) (e : option error) :
  findCurrentHourIndex W (Hourly_Time (Hourly response)) (Timezone response)
  = (tr, Return (s, e)) ->
  hourly_aligned (Hourly response) ->
  let n := len (Hourly_Time (Hourly response)) in
  let window := Zseq s (Z.to_nat (Z.max 0 (Z.min 5 (n - s)))) in
  main_hourly_from W response s
  = (hourly_header :: map (hourly_entry W response) window, Return tt)
  /\ len window = Z.max 0 (Z.min 5 (n - s))
  /\ (forall i, List.In i window -> s <= i < n)
  /\ main_hourly W response
     = ((tr ++ match e with Some err => [warning err] | None => [] end
            ++ hourly_header :: map (hourly_entry W response) window)%list,
        Return tt)
  /\ main0_hourly W response
     = (hourly_header
          :: map (hourly_entry W response)
                 (Zseq 0 (Z.to_nat (Z.max 0 (Z.min 5 (n - 0))))),
        Return tt).
Proof.
  intros Hrun Ha n window.
  destruct (main_hourly_run W response Hrun) as [Hmain Hs].
  assert (Hfrom : main_hourly_from W response s
                  = (hourly_header :: map (hourly_entry W response) window,
                     Return tt))
    by (now apply main_hourly_from_run).
  split; [exact Hfrom|]. split; [|split; [|split]].
  - unfold window. rewrite len_Zseq. lia.
  - intros i Hi. unfold window in Hi. apply Zseq_In in Hi. lia.
  - rewrite Hmain, Hfrom. reflexivity.
  - now apply main0_hourly_run.
Qed.

(** C2 at the mocked library: the clock at 00:30 in UTC, eight hourly
    entries; the window is the entries 1 to 5. *)
Lemma C2_witness :
  let W := Mock.serving "UTC" Mock.UTC in
  let response := Mock.sample "UTC" in
  hourly_aligned (Hourly response)
  /\ main_hourly_from W response 1
     = (hourly_header :: map (hourly_entry W response) [1; 2; 3; 4; 5],
        Return tt).
Proof.
  intros W response.
  assert (Ha : hourly_aligned (Hourly response)) by (repeat split).
  split; [exact Ha|].
  refine (proj1 (@C2_hourly_window
                   W response
                   [Stdout ("Current time in UTC: 2024-01-01 00:30:00" ++ nl);
                    Stdout ("Found next forecast time: 2024-01-01 01:00 (index 1)"
                            ++ nl)]
                   1 None _ Ha)).
  vm_compute. reflexivity.
Defined.

(** C5: for a day count [N >= 1] and daily sequences of one length,
    the daily summary is the entries at 0, 1, ... in order,
    [min(N, len(daily.time))] of them; the entry at 0 is labelled
    [Today], the entry at 1 [Tomorrow], and the entry at [i >= 2]
    [Day i+1]; in a run of either program it is written between the
    header and the hourly summary. *)
Theorem C5_daily_summary (W : World) (response : WeatherResponse) (N : Z) :
  1 <= N ->
  daily_aligned (Daily response) ->
  let shown :=
    Zseq 0 (Z.to_nat (Z.min N (len (Daily_Time (Daily response))))) in
  main_daily W response N
  = (flat_map (daily_entry W response) shown, Return tt)
  /\ len shown = Z.min N (len (Daily_Time (Daily response)))
  /\ dayLabel 0 = "Today"
  /\ dayLabel 1 = "Tomorrow"
  /\ (forall i, 2 <= i -> dayLabel i = "Day " ++ itoa (i + 1))
  /\ (forall hourly flags,
        days_of flags = N ->
        fetched W flags = inl response ->
        trace (main_with W hourly flags)
        = (notice W flags
           ++ [HttpGet (request_of W flags); header W response]
           ++ flat_map (daily_entry W response) shown
           ++ trace (hourly response))%list).
Proof.
  intros HN Ha shown.
  assert (Hrun : main_daily W response N
                 = (flat_map (daily_entry W response) shown, Return tt))
    by (now apply main_daily_run).
  split; [exact Hrun|]. split; [|split; [|split; [|split]]].
  - unfold shown. rewrite len_Zseq. unfold len. lia.
  - reflexivity.
  - reflexivity.
  - intros i Hi. unfold dayLabel.
    replace (i =? 0) with false by (symmetry; apply Z.eqb_neq; lia).
    now replace (i =? 1) with false by (symmetry; apply Z.eqb_neq; lia).
  - intros hourly flags Hd Hf.
    rewrite (@main_with_fetch_ok W hourly flags response) by (assumption || lia).
    rewrite Hd, Hrun, bind_Return. unfold trace. simpl fst.
    reflexivity.
Qed.

(** C5 at three days of data and a request for seven. *)
Lemma C5_witness :
  let W := Mock.serving "UTC" Mock.UTC in
  let response := Mock.sample "UTC" in
  1 <= 7
  /\ daily_aligned (Daily response)
  /\ main_daily W response 7
     = (flat_map (daily_entry W response) [0; 1; 2], Return tt).
Proof.
  intros W response.
  assert (HN : 1 <= 7) by (vm_compute; discriminate).
  assert (Ha : daily_aligned (Daily response)) by (repeat split).
  split; [exact HN|]. split; [exact Ha|].
  exact (proj1 (C5_daily_summary W response HN Ha)).
Defined.

(** The labels of a run of four days. *)
Example labels_of_four_days :
  map dayLabel [0; 1; 2; 3] = ["Today"; "Tomorrow"; "Day 3"; "Day 4"].
Proof. reflexivity. Qed.

(** ** No access out of range *)

(** C9: when the sequences of the forecast that was fetched share one
    length within each group, no run of [main] ends in a panic: every
    slice access of the two rendering loops is in range and the run
    returns or exits with status 1; the same holds of the earlier
    program.  The index that [findCurrentHourIndex] returns is inside a
    non-empty sequence, and is 0 on the empty one. *)
Theorem C9_indices_in_bounds (W : World) (flags : Flags) :
  (forall response, fetched W flags = inl response -> aligned response) ->
  (result (main W flags) = Return tt \/ result (main W flags) = Exit 1)
  /\ (forall reason, result (main W flags) <> Panic reason)
  /\ (result (main0 W flags) = Return tt \/ result (main0 W flags) = Exit 1)
  /\ (forall hourlyTimes timezone,
        exists tr i e,
          findCurrentHourIndex W hourlyTimes timezone = (tr, Return (i, e))
          /\ (hourlyTimes <> [] -> 0 <= i < len hourlyTimes)
          /\ (hourlyTimes = [] -> i = 0)).
Proof.
  intros Hal.
  assert (Hmain : result (main W flags) = Return tt
                  \/ result (main W flags) = Exit 1).
  { unfold main.
    destruct (Z.lt_ge_cases (days_of flags) 1) as [Hd|Hd].
    { right. now rewrite main_with_invalid_days. }
    destruct (fetched W flags) as [response|k] eqn:Hf.
    2:{ right. now rewrite (main_with_fetch_failed _ _ _ Hd Hf). }
    left. destruct (Hal response eq_refl) as [Hh Hdaily].
    rewrite (main_with_fetch_ok _ _ _ Hd Hf).
    rewrite (main_daily_run _ _ _ Hdaily), bind_Return.
    unfold result at 1. simpl snd. now apply main_hourly_returns. }
  split; [exact Hmain|]. split; [|split].
  - intros reason Hp. destruct Hmain as [H|H]; congruence.
  - unfold main0.
    destruct (Z.lt_ge_cases (days_of flags) 1) as [Hd|Hd].
    { right. now rewrite main_with_invalid_days. }
    destruct (fetched W flags) as [response|k] eqn:Hf.
    2:{ right. now rewrite (main_with_fetch_failed _ _ _ Hd Hf). }
    left. destruct (Hal response eq_refl) as [Hh Hdaily].
    rewrite (main_with_fetch_ok _ _ _ Hd Hf).
    rewrite (main_daily_run _ _ _ Hdaily), bind_Return.
    now rewrite (@main0_hourly_run W response Hh).
  - intros hourlyTimes timezone.
    destruct (findCurrentHourIndex_range W hourlyTimes timezone)
      as (tr & i & e & Hrun & Hi).
    exists tr, i, e. split; [exact Hrun|]. split.
    + intros Hne. destruct Hi as [->|Hi]; [|exact Hi].
      destruct hourlyTimes; [congruence|].
      unfold len. simpl List.length. lia.
    + intros ->. destruct Hi as [Hi|Hi]; [exact Hi|].
      unfold len in Hi. simpl in Hi. lia.
Qed.

(** C9 at the mocked service and its well-formed sample. *)
Lemma C9_witness :
  let W := Mock.serving "UTC" Mock.UTC in
  (forall response,
      fetched W Mock.no_flags = inl response -> aligned response)
  /\ (result (main W Mock.no_flags) = Return tt
      \/ result (main W Mock.no_flags) = Exit 1).
Proof.
  intros W.
  assert (H : forall response,
             fetched W Mock.no_flags = inl response -> aligned response).
  { intros response Hf.
    change (inl (Mock.sample "UTC") = inl response :> (_ + FetchError)) in Hf.
    injection Hf as <-. repeat split. }
  split; [exact H|].
  exact (proj1 (C9_indices_in_bounds W Mock.no_flags H)).
Defined.

(** A run with no flags at the mocked service, the clock at 00:30 UTC
    on the first day of the sample. *)
Example default_run :
  main (Mock.serving "UTC" Mock.UTC) Mock.no_flags
  = ([Stdout ("Using default location: New York City (40.71, -74.01) and 2 days" ++ nl);
      Stdout ("You can specify location and days with: -lat=<value> -lon=<value> -days=<value>" ++ nl);
      HttpGet "https://api.open-meteo.com/v1/forecast?daily=temperature_2m_max%2Ctemperature_2m_min%2Cprecipitation_sum%2Crain_sum%2Cprecipitation_hours%2Cprecipitation_probability_max%2Cwind_speed_10m_max&hourly=temperature_2m%2Cprecipitation_probability%2Cprecipitation&latitude=40.71&longitude=-74.01&timezone=auto";
      Stdout ("Weather for: 40.7103, -73.9931 - Timezone: UTC" ++ nl);
      Stdout ("Today (2024-01-01):" ++ nl);
      Stdout ("  Temperature: 1.7°C to 6.4°C" ++ nl);
      Stdout ("  Precipitation: 0.8 mm (probability: 60.0%)" ++ nl);
      Stdout ("  Rain: 0.8 mm - Precipitation Hours: 3.0" ++ nl);
      Stdout ("  Max Wind Speed: 14.8 km/h" ++ nl ++ nl);
      Stdout ("Tomorrow (2024-01-02):" ++ nl);
      Stdout ("  Temperature: 0.3°C to 7.0°C" ++ nl);
      Stdout ("  Precipitation: 0.0 mm (probability: 10.0%)" ++ nl);
      Stdout ("  Rain: 0.0 mm - Precipitation Hours: 0.0" ++ nl);
      Stdout ("  Max Wind Speed: 9.2 km/h" ++ nl ++ nl);
      Stdout ("Current time in UTC: 2024-01-01 00:30:00" ++ nl);
      Stdout ("Found next forecast time: 2024-01-01 01:00 (index 1)" ++ nl);
      Stdout ("Hourly Forecast (next 5 hours):" ++ nl);
      Stdout ("  2024-01-01T01:00: 3.1°C, Precipitation: 0.0 mm (5.0% probability)" ++ nl);
      Stdout ("  2024-01-01T02:00: 2.8°C, Precipitation: 0.0 mm (10.0% probability)" ++ nl);
      Stdout ("  2024-01-01T03:00: 2.2°C, Precipitation: 0.1 mm (35.0% probability)" ++ nl);
      Stdout ("  2024-01-01T04:00: 2.0°C, Precipitation: 0.5 mm (60.0% probability)" ++ nl);
      Stdout ("  2024-01-01T05:00: 1.7°C, Precipitation: 0.2 mm (45.0% probability)" ++ nl)],
     Return tt).
Proof. vm_compute. reflexivity. Qed.

(** The decoder does not enforce the invariant: a forecast with a date
    but no temperatures makes the daily loop fail at its first read
    past the end, after the line with the label. *)
Example misaligned_daily_panics :
  let response :=
    {| Latitude := 0%float; Longitude := 0%float; Timezone := "UTC";
       Hourly := {| Hourly_Time := []; Hourly_Temperature2m := [];
                    Hourly_PrecipitationProbability := [];
                    Hourly_Precipitation := [] |};
       Daily := {| Daily_Time := ["2024-01-01"];
                   Daily_Temperature2mMax := [];
                   Daily_Temperature2mMin := [];
                   Daily_PrecipitationSum := []; Daily_RainSum := [];
                   Daily_PrecipitationHours := [];
                   Daily_PrecipitationProbabilityMax := [];
                   Daily_WindSpeed10mMax := [] |} |} in
  main_daily (Mock.serving "UTC" Mock.UTC) response 1
  = ([Stdout ("Today (2024-01-01):" ++ nl)], Panic "index out of range").
Proof. vm_compute. reflexivity. Qed.

(** * Further properties of the program *)

(** ** What the rendering never does *)

Lemma quiet_ret {A : Type} (a : A) : quiet (ret a).
Proof. split; [constructor | split; discriminate]. Qed.

Lemma quiet_print (s : string) : quiet (print s).
Proof.
  split; [repeat constructor | split; discriminate].
Qed.

Lemma quiet_panic {A : Type} : quiet (@panic A "index out of range").
Proof.
  split; [constructor | split; [discriminate|]].
  intros reason [= <-]. reflexivity.
Qed.

Lemma quiet_index {A : Type} (s : list A) (i : Z) : quiet (index s i).
Proof.
  unfold index. destruct ((0 <=? i) && (i <? len s)).
  - destruct (nth_error s (Z.to_nat i)); [apply quiet_ret | apply quiet_panic].
  - apply quiet_panic.
Qed.

Lemma quiet_bind {A B : Type} (m : IO A) (f : A -> IO B) :
  quiet m -> (forall a, quiet (f a)) -> quiet (bind m f).
Proof.
  intros (Ht & Hr & Hp) Hf. destruct m as [t [a|code|reason]]; simpl in *.
  - destruct (Hf a) as (Hta & Hra & Hpa). unfold bind.
    destruct (f a) as [t' o]. split; [|split].
    + apply Forall_app. split; assumption.
    + exact Hra.
    + exact Hpa.
  - exfalso. exact (Hr code eq_refl).
  - split; [exact Ht | split; [discriminate|]].
    intros r [= <-]. exact (Hp reason eq_refl).
Qed.

Lemma quiet_for_from (body : Z -> IO bool) :
  (forall i, quiet (body i)) ->
  forall (n : nat) (lo : Z), quiet (for_from n lo body).
Proof.
  intros Hbody. induction n as [|n IH]; intros lo.
  - apply quiet_ret.
  - simpl. apply quiet_bind; [apply Hbody|].
    intros [|]; [apply quiet_ret | apply IH].
Qed.

Ltac quiet_steps :=
  repeat first [ apply quiet_ret | apply quiet_print | apply quiet_index
               | apply quiet_panic
               | apply quiet_bind; [|intros ?] ].

Lemma quiet_main_daily (W : World) (response : WeatherResponse) (days : Z) :
  quiet (main_daily W response days).
Proof.
  unfold main_daily, for_lt. apply quiet_for_from. intros i.
  unfold main_daily_body. cbv zeta. quiet_steps.
Qed.

Lemma quiet_main_hourly_from (W : World) (response : WeatherResponse)
      (s : Z) :
  quiet (main_hourly_from W response s).
Proof.
  unfold main_hourly_from. cbv zeta. apply quiet_bind; [apply quiet_print|].
  intros _. unfold for_lt. apply quiet_for_from. intros j.
  unfold main_hourly_body. cbv zeta.
  destruct (s + j >=? len (Hourly_Time (Hourly response))); quiet_steps.
Qed.

Lemma quiet_main0_hourly (W : World) (response : WeatherResponse) :
  quiet (main0_hourly W response).
Proof.
  unfold main0_hourly. cbv zeta. apply quiet_bind; [apply quiet_print|].
  intros _. unfold for_lt. apply quiet_for_from. intros j.
  unfold main0_hourly_body. cbv zeta. quiet_steps.
Qed.

Lemma quiet_scanHours (W : World) (loc : Location) (now : Time)
      (l : list string) : forall i, quiet (scanHours W loc now i l).
Proof.
  induction l as [|s l IH]; intros i; cbn [scanHours].
  - apply quiet_ret.
  - destruct (time_ParseInLocation W "2006-01-02T15:04" s loc) as [t|e];
      [|apply IH].
    destruct (After t now); [quiet_steps | apply IH].
Qed.

Lemma quiet_findCurrentHourIndex (W : World) (l : list string)
      (timezone : string) :
  quiet (findCurrentHourIndex W l timezone).
Proof.
  unfold findCurrentHourIndex.
  destruct (time_LoadLocation W timezone) as [loc|err]; [|apply quiet_ret].
  cbv zeta. apply quiet_bind; [apply quiet_print|]. intros _.
  apply quiet_bind; [apply quiet_scanHours|].
  intros [i|]; quiet_steps.
Qed.

Lemma quiet_main_hourly (W : World) (response : WeatherResponse) :
  quiet (main_hourly W response).
Proof.
  unfold main_hourly.
  apply quiet_bind; [apply quiet_findCurrentHourIndex|].
  intros [i [err|]]; (apply quiet_bind; [|intros ?; apply quiet_main_hourly_from]);
    quiet_steps.
Qed.

Lemma requests_app (t t' : list event) :
  requests (t ++ t')%list = (requests t ++ requests t')%list.
Proof. unfold requests. apply flat_map_app. Qed.

Lemma requests_quiet (t : list event) :
  Forall is_Stdout t -> requests t = [].
Proof.
  induction 1 as [|e t He _ IH]; [reflexivity|].
  destruct e; [exact IH | destruct He].
Qed.

Lemma requests_notice (W : World) (flags : Flags) :
  requests (notice W flags) = [].
Proof. unfold notice. now destruct (NFlag flags =? 0). Qed.

(** The shape of a run of either program, whatever the hourly part
    does, as long as it is quiet. *)
Lemma main_with_requests (W : World) (hourly : WeatherResponse -> IO unit)
      (flags : Flags) :
  (forall response, quiet (hourly response)) ->
  requests (trace (main_with W hourly flags))
  = (if days_of flags <? 1 then [] else [request_of W flags])
  /\ (forall code, result (main_with W hourly flags) = Exit code -> code = 1)
  /\ (result (main_with W hourly flags) = Exit 1
      <-> days_of flags < 1 \/ exists k, fetched W flags = inr k).
Proof.
  intros Hq.
  destruct (Z.ltb_spec (days_of flags) 1) as [Hd|Hd].
  { rewrite main_with_invalid_days by exact Hd. unfold trace, result.
    simpl fst. simpl snd. rewrite requests_app, requests_notice.
    split; [reflexivity|]. split.
    - intros code [= <-]. reflexivity.
    - split; [intros _; now left | reflexivity]. }
  destruct (fetched W flags) as [response|k] eqn:Hf.
  - rewrite (main_with_fetch_ok _ _ _ Hd Hf).
    assert (Hrest : quiet (main_daily W response (days_of flags) ;;
                           hourly response))
      by (apply quiet_bind; [apply quiet_main_daily | intros _; apply Hq]).
    destruct Hrest as (Ht & Hr & _). unfold trace at 1, result at 1 2.
    simpl fst. simpl snd. split; [|split].
    + rewrite requests_app, requests_notice. simpl.
      now rewrite (requests_quiet Ht).
    + intros code Hc. exfalso. exact (Hr code Hc).
    + split.
      * intros Hc. exfalso. exact (Hr 1 Hc).
      * intros [Hlt|[k Hk]]; [lia | discriminate].
  - rewrite (main_with_fetch_failed _ _ _ Hd Hf). unfold trace, result.
    simpl fst. simpl snd. rewrite requests_app, requests_notice.
    split; [reflexivity|]. split.
    + intros code [= <-]. reflexivity.
    + split; [intros _; right; now exists k | reflexivity].
Qed.

(** X1: [main] calls [client.Get], through [GetWeatherForecast],
    exactly once when the day count is at least 1, with the URL built
    from the coordinates, and not at all when the day count is below
    1: there is no second call after a failure, and neither the search
    for the current hour nor the rendering calls it, whatever the
    forecast holds.  The call comes right after the notice, before any
    line about the forecast or the failure is written.  (What the
    library's client sends on the wire for that one call, such as the
    requests it makes when it follows redirects, is not the program's
    doing and is not counted.)  This holds of both programs. *)
Theorem X1_one_call_of_Get (W : World) (flags : Flags) :
  requests (trace (main W flags))
  = (if days_of flags <? 1 then [] else [request_of W flags])
  /\ requests (trace (main0 W flags))
     = (if days_of flags <? 1 then [] else [request_of W flags])
  /\ (1 <= days_of flags ->
      exists rest rest0,
        trace (main W flags)
        = (notice W flags ++ HttpGet (request_of W flags) :: rest)%list
        /\ Forall is_Stdout rest
        /\ rest <> []
        /\ trace (main0 W flags)
           = (notice W flags ++ HttpGet (request_of W flags) :: rest0)%list
        /\ Forall is_Stdout rest0
        /\ rest0 <> []).
Proof.
  split; [|split].
  - apply (main_with_requests W (main_hourly W) flags). apply quiet_main_hourly.
  - apply (main_with_requests W (main0_hourly W) flags). apply quiet_main0_hourly.
  - intros Hd.
    assert (Hshape : forall hourly,
               (forall response, quiet (hourly response)) ->
               exists rest,
                 trace (main_with W hourly flags)
                 = (notice W flags
                    ++ HttpGet (request_of W flags) :: rest)%list
                 /\ Forall is_Stdout rest /\ rest <> []).
    { intros hourly Hq.
      destruct (fetched W flags) as [response|k] eqn:Hf.
      - rewrite (main_with_fetch_ok _ _ _ Hd Hf). unfold trace at 1.
        simpl fst.
        assert (Hrest : quiet (main_daily W response (days_of flags) ;;
                               hourly response))
          by (apply quiet_bind; [apply quiet_main_daily | intros _; apply Hq]).
        destruct Hrest as (Ht & _ & _).
        eexists. split; [reflexivity|]. split; [|discriminate].
        constructor; [exact I | exact Ht].
      - rewrite (main_with_fetch_failed _ _ _ Hd Hf). unfold trace.
        simpl fst. eexists. split; [reflexivity|]. split; [|discriminate].
        repeat constructor. }
    destruct (Hshape (main_hourly W) (quiet_main_hourly W))
      as (rest & Ht & Hq & Hne).
    destruct (Hshape (main0_hourly W) (quiet_main0_hourly W))
      as (rest0 & Ht0 & Hq0 & Hne0).
    exists rest, rest0. unfold main, main0. repeat split; assumption.
Qed.

(** X2: the only exit status [main] passes to [os.Exit] is 1, and a
    run ends that way exactly when the day count is below 1 or the
    fetch fails; no content of the forecast, well-formed or not, makes
    the rendering exit.  This holds of both programs. *)
Theorem X2_exit_status (W : World) (flags : Flags) :
  (forall code, result (main W flags) = Exit code -> code = 1)
  /\ (result (main W flags) = Exit 1
      <-> days_of flags < 1 \/ exists k, fetched W flags = inr k)
  /\ (forall code, result (main0 W flags) = Exit code -> code = 1)
  /\ (result (main0 W flags) = Exit 1
      <-> days_of flags < 1 \/ exists k, fetched W flags = inr k).
Proof.
  destruct (main_with_requests W (main_hourly W) flags (quiet_main_hourly W))
    as (_ & H1 & H2).
  destruct (main_with_requests W (main0_hourly W) flags (quiet_main0_hourly W))
    as (_ & H3 & H4).
  repeat split; try assumption; try apply H2; try apply H4.
Qed.

(** X3: when the fetch fails, whichever of the four failures it is,
    the run writes one line, [Error getting weather forecast: ]
    followed by the message of the error, right after the request,
    writes no line of the forecast and exits with status 1; the two
    programs run alike. *)
Theorem X3_failed_fetch_ends_run (W : World) (flags : Flags)
        (k : FetchError) :
  1 <= days_of flags ->
  fetched W flags = inr k ->
  main W flags
  = ((notice W flags
      ++ [HttpGet (request_of W flags);
          Stdout ("Error getting weather forecast: "
                  ++ Error (fetch_error k) ++ nl)])%list,
     Exit 1)
  /\ main0 W flags = main W flags.
Proof.
  intros Hd Hf. unfold main, main0.
  rewrite !(main_with_fetch_failed _ _ _ Hd Hf). split; reflexivity.
Qed.

(** X3 at a service that cannot be reached. *)
Lemma X3_witness :
  let W := Mock.world 0 (inr (errorString "dial tcp: connection refused"))
                      (inr (errorString "unused")) in
  1 <= days_of Mock.no_flags
  /\ fetched W Mock.no_flags
     = inr (TransportError (errorString "dial tcp: connection refused"))
  /\ result (main W Mock.no_flags) = Exit 1.
Proof.
  intros W.
  assert (Hd : 1 <= days_of Mock.no_flags) by (vm_compute; discriminate).
  assert (Hf : fetched W Mock.no_flags
               = inr (TransportError
                        (errorString "dial tcp: connection refused")))
    by reflexivity.
  split; [exact Hd|]. split; [exact Hf|].
  destruct (X3_failed_fetch_ends_run W Mock.no_flags Hd Hf) as [-> _].
  reflexivity.
Defined.

(** ** What the rendering needs of the forecast *)

Lemma index_out_of_range {A : Type} (s : list A) (i : Z) :
  ~ (0 <= i < len s) -> index s i = panic "index out of range".
Proof.
  intros Hi. unfold index.
  destruct (Z.leb_spec 0 i); destruct (Z.ltb_spec i (len s));
    simpl; try reflexivity.
  lia.
Qed.

Lemma result_bind_print {B : Type} (s : string) (k : unit -> IO B) :
  result (bind (print s) k) = result (k tt).
Proof. now rewrite bind_print. Qed.

Lemma result_bind_panic {A B : Type} (reason : string) (f : A -> IO B) :
  result (bind (panic reason) f) = Panic reason.
Proof. reflexivity. Qed.

(** A counted loop whose body fails at some index, and goes on at the
    indices where it does not, fails. *)
Lemma for_from_some_panic (body : Z -> IO bool) (reason : string) :
  forall (n : nat) (lo : Z),
    (forall i, lo <= i < lo + Z.of_nat n ->
               result (body i) = Return false
               \/ result (body i) = Panic reason) ->
    (exists i, lo <= i < lo + Z.of_nat n /\ result (body i) = Panic reason) ->
    result (for_from n lo body) = Panic reason.
Proof.
  induction n as [|n IH]; intros lo Hall [i [Hi Hp]]; [lia|].
  simpl. destruct (Hall lo ltac:(lia)) as [Hok|Hbad].
  - destruct (body lo) as [t o] eqn:Hb. unfold result in Hok. simpl in Hok.
    subst o. rewrite bind_Return. unfold result at 1. simpl snd.
    apply IH.
    + intros j Hj. apply Hall. lia.
    + exists i. split; [|exact Hp].
      destruct (Z.eq_dec i lo) as [->|Hne]; [|lia].
      rewrite Hb in Hp. discriminate.
  - destruct (body lo) as [t o]. unfold result in Hbad. simpl in Hbad.
    subst o. reflexivity.
Qed.

Ltac read_float_at i l :=
  rewrite (@index_in_range float64 l i 0%float) by lia; rewrite bind_ret_l.

Lemma main_daily_body_covered (W : World) (response : WeatherResponse)
      (i : Z) :
  0 <= i < len (Daily_Time (Daily response)) ->
  daily_covers (Daily response) i ->
  main_daily_body W response i = (daily_entry W response i, Return false).
Proof.
  intros Hi (H1 & H2 & H3 & H4 & H5 & H6 & H7).
  unfold main_daily_body, daily_entry. cbv zeta.
  read_string. rewrite bind_print.
  read_float. read_float. rewrite bind_print.
  read_float. read_float. rewrite bind_print.
  read_float. read_float. rewrite bind_print.
  read_float. rewrite bind_print.
  reflexivity.
Qed.

Ltac read_or_panic i l :=
  destruct (Z.lt_ge_cases i (len l));
  [ rewrite (@index_in_range float64 l i 0%float) by lia; rewrite bind_ret_l
  | rewrite (@index_out_of_range float64 l i) by lia; reflexivity ].

Lemma main_daily_body_uncovered (W : World) (response : WeatherResponse)
      (i : Z) :
  0 <= i < len (Daily_Time (Daily response)) ->
  ~ daily_covers (Daily response) i ->
  result (main_daily_body W response i) = Panic "index out of range".
Proof.
  intros Hi Hn. unfold main_daily_body. cbv zeta.
  read_string. rewrite result_bind_print.
  read_or_panic i (Daily_Temperature2mMin (Daily response)).
  read_or_panic i (Daily_Temperature2mMax (Daily response)).
  rewrite result_bind_print.
  read_or_panic i (Daily_PrecipitationSum (Daily response)).
  read_or_panic i (Daily_PrecipitationProbabilityMax (Daily response)).
  rewrite result_bind_print.
  read_or_panic i (Daily_RainSum (Daily response)).
  read_or_panic i (Daily_PrecipitationHours (Daily response)).
  rewrite result_bind_print.
  read_or_panic i (Daily_WindSpeed10mMax (Daily response)).
  exfalso. apply Hn. repeat split; assumption.
Qed.

Lemma daily_covers_dec (d : DailyData) (i : Z) :
  daily_covers d i \/ ~ daily_covers d i.
Proof. unfold daily_covers. lia. Qed.

(** X4: the daily summary reads the value sequences only at the
    indices it shows, [0 <= i < min(N, len(daily.time))].  When all of
    these are inside every value sequence the summary is written in
    full and the loop returns, whatever the lengths beyond; when one of
    them is outside some value sequence the run ends in an
    index-out-of-range panic. *)
Theorem X4_daily_reads_only_what_it_shows (W : World)
        (response : WeatherResponse) (N : Z) :
  let k := Z.min N (len (Daily_Time (Daily response))) in
  ((forall i, 0 <= i < k -> daily_covers (Daily response) i) ->
   main_daily W response N
   = (flat_map (daily_entry W response) (Zseq 0 (Z.to_nat k)), Return tt))
  /\ ((exists i, 0 <= i < k /\ ~ daily_covers (Daily response) i) ->
      result (main_daily W response N) = Panic "index out of range").
Proof.
  intros k. split.
  - intros Hc. unfold main_daily. rewrite daysToShow_min. fold k.
    rewrite (for_lt_all _ (daily_entry W response)).
    + now rewrite Z.sub_0_r.
    + intros i Hi. apply main_daily_body_covered; [lia | now apply Hc].
  - intros Hex. unfold main_daily, for_lt. rewrite daysToShow_min. fold k.
    apply for_from_some_panic.
    + intros i Hi.
      destruct (daily_covers_dec (Daily response) i) as [Hc|Hn].
      * left. now rewrite main_daily_body_covered by (assumption || lia).
      * right. apply main_daily_body_uncovered; [lia | exact Hn].
    + destruct Hex as [i [Hi Hn]]. exists i. split; [lia|].
      apply main_daily_body_uncovered; [lia | exact Hn].
Qed.

Lemma main_hourly_body_covered (W : World) (response : WeatherResponse)
      (s j : Z) :
  0 <= s + j < len (Hourly_Time (Hourly response)) ->
  hourly_covers (Hourly response) (s + j) ->
  main_hourly_body W response s j
  = ([hourly_entry W response (s + j)], Return false).
Proof.
  intros Hi (H1 & H2 & H3).
  unfold main_hourly_body, hourly_entry. cbv zeta.
  replace (s + j >=? len (Hourly_Time (Hourly response)))
    with false by (symmetry; rewrite Z.geb_leb; apply Z.leb_gt; lia).
  read_string. read_float. read_float. read_float.
  rewrite bind_print. reflexivity.
Qed.

Lemma main_hourly_body_uncovered (W : World) (response : WeatherResponse)
      (s j : Z) :
  0 <= s + j < len (Hourly_Time (Hourly response)) ->
  ~ hourly_covers (Hourly response) (s + j) ->
  result (main_hourly_body W response s j) = Panic "index out of range".
Proof.
  intros Hi Hn. unfold main_hourly_body. cbv zeta.
  replace (s + j >=? len (Hourly_Time (Hourly response)))
    with false by (symmetry; rewrite Z.geb_leb; apply Z.leb_gt; lia).
  read_string.
  read_or_panic (s + j) (Hourly_Temperature2m (Hourly response)).
  read_or_panic (s + j) (Hourly_Precipitation (Hourly response)).
  read_or_panic (s + j) (Hourly_PrecipitationProbability (Hourly response)).
  exfalso. apply Hn. repeat split; assumption.
Qed.

Lemma hourly_covers_dec (h : HourlyData) (i : Z) :
  hourly_covers h i \/ ~ hourly_covers h i.
Proof. unfold hourly_covers. lia. Qed.

(** X5: from a start index [s >= 0] the hourly summary reads the value
    sequences only at the indices of its window,
    [s <= i < s + min(5, len(hourly.time) - s)].  When all of these are
    inside every value sequence the window is written in full and the
    loop returns; when one of them is outside some value sequence the
    run ends in an index-out-of-range panic. *)
Theorem X5_hourly_reads_only_its_window (W : World)
        (response : WeatherResponse) (s : Z) :
  0 <= s ->
  let k := Z.min 5 (len (Hourly_Time (Hourly response)) - s) in
  ((forall i, s <= i < s + k -> hourly_covers (Hourly response) i) ->
   main_hourly_from W response s
   = (hourly_header
        :: map (hourly_entry W response) (Zseq s (Z.to_nat k)),
      Return tt))
  /\ ((exists i, s <= i < s + k /\ ~ hourly_covers (Hourly response) i) ->
      result (main_hourly_from W response s) = Panic "index out of range").
Proof.
  intros Hs k. split.
  - intros Hc. unfold main_hourly_from. rewrite bind_print.
    rewrite hoursToPrint_min. fold k.
    rewrite (for_lt_all _ (fun j => [hourly_entry W response (s + j)])).
    + unfold trace, result, hourly_header. simpl fst. simpl snd.
      rewrite Z.sub_0_r.
      rewrite (flat_map_singleton (fun j => hourly_entry W response (s + j))).
      now rewrite map_Zseq_shift.
    + intros j Hj. apply main_hourly_body_covered; [lia|]. apply Hc. lia.
  - intros Hex. unfold main_hourly_from. rewrite result_bind_print.
    rewrite hoursToPrint_min. fold k. unfold for_lt.
    apply for_from_some_panic.
    + intros j Hj.
      destruct (hourly_covers_dec (Hourly response) (s + j)) as [Hc|Hn].
      * left. now rewrite main_hourly_body_covered by (assumption || lia).
      * right. apply main_hourly_body_uncovered; [lia | exact Hn].
    + destruct Hex as [i [Hi Hn]]. exists (i - s). split; [lia|].
      replace i with (s + (i - s)) in Hn by lia.
      apply main_hourly_body_uncovered; [lia | exact Hn].
Qed.

(** X5 at a forecast whose temperatures stop after three hours: from
    index 1 the window reaches index 3, which has no temperature. *)
Lemma X5_witness :
  let response :=
    {| Latitude := 0%float; Longitude := 0%float; Timezone := "UTC";
       Hourly := {| Hourly_Time := Hourly_Time (Hourly (Mock.sample "UTC"));
                    Hourly_Temperature2m := [3.5; 3.1; 2.8]%float;
                    Hourly_PrecipitationProbability :=
                      Hourly_PrecipitationProbability
                        (Hourly (Mock.sample "UTC"));
                    Hourly_Precipitation :=
                      Hourly_Precipitation (Hourly (Mock.sample "UTC")) |};
       Daily := Daily (Mock.sample "UTC") |} in
  0 <= 1
  /\ result (main_hourly_from (Mock.serving "UTC" Mock.UTC) response 1)
     = Panic "index out of range".
Proof.
  intros response.
  assert (Hs : 0 <= 1) by (vm_compute; discriminate).
  split; [exact Hs|].
  apply (proj2 (X5_hourly_reads_only_its_window
                  (Mock.serving "UTC" Mock.UTC) response Hs)).
  exists 3. split; [vm_compute; split; [discriminate | reflexivity]|].
  intros [H _]. vm_compute in H. discriminate.
Defined.

(** ** When a run fails *)

Lemma main_with_panic (W : World) (hourly : WeatherResponse -> IO unit)
      (flags : Flags) (reason : string) :
  (forall response, quiet (hourly response)) ->
  (forall response, hourly_aligned (Hourly response) ->
                    result (hourly response) = Return tt) ->
  result (main_with W hourly flags) = Panic reason ->
  reason = "index out of range"
  /\ 1 <= days_of flags
  /\ exists response, fetched W flags = inl response /\ ~ aligned response.
Proof.
  intros Hq Hret Hp.
  destruct (Z.lt_ge_cases (days_of flags) 1) as [Hd|Hd].
  { rewrite main_with_invalid_days in Hp by exact Hd. discriminate. }
  destruct (fetched W flags) as [response|k] eqn:Hf.
  2:{ rewrite (main_with_fetch_failed _ _ _ Hd Hf) in Hp. discriminate. }
  rewrite (main_with_fetch_ok _ _ _ Hd Hf) in Hp.
  unfold result at 1 in Hp. simpl snd in Hp.
  assert (Hrest : quiet (main_daily W response (days_of flags) ;;
                         hourly response))
    by (apply quiet_bind; [apply quiet_main_daily | intros _; apply Hq]).
  destruct Hrest as (_ & _ & Hoob).
  split; [exact (Hoob reason Hp)|]. split; [exact Hd|].
  exists response. split; [reflexivity|].
  intros [Hh Hdaily].
  rewrite (main_daily_run _ _ _ Hdaily), bind_Return in Hp.
  unfold result at 1 in Hp. simpl snd in Hp.
  rewrite (Hret response Hh) in Hp. discriminate.
Qed.

(** X6: a run of [main] can end in a panic only as an index out of
    range in the rendering, after a fetch that succeeded with a
    forecast whose sequences do not share one length; in particular
    the response that [main] dereferences is never nil.  This holds of
    both programs. *)
Theorem X6_panics_only_on_misaligned_forecast (W : World) (flags : Flags)
        (reason : string) :
  (result (main W flags) = Panic reason ->
   reason = "index out of range"
   /\ 1 <= days_of flags
   /\ exists response, fetched W flags = inl response /\ ~ aligned response)
  /\ (result (main0 W flags) = Panic reason ->
      reason = "index out of range"
      /\ 1 <= days_of flags
      /\ exists response,
          fetched W flags = inl response /\ ~ aligned response).
Proof.
  split; intros Hp.
  - apply (@main_with_panic W (main_hourly W) flags reason);
      [apply quiet_main_hourly | apply main_hourly_returns | exact Hp].
  - apply (@main_with_panic W (main0_hourly W) flags reason);
      [apply quiet_main0_hourly | | exact Hp].
    intros response Hh. now rewrite (@main0_hourly_run W response Hh).
Qed.

(** ** The two programs *)

Lemma for_from_ext (body body' : Z -> IO bool) :
  forall (n : nat) (lo : Z),
    (forall i, lo <= i < lo + Z.of_nat n -> body i = body' i) ->
    for_from n lo body = for_from n lo body'.
Proof.
  induction n as [|n IH]; intros lo Hext; [reflexivity|].
  simpl. rewrite Hext by lia. f_equal.
  assert (Hrest : for_from n (lo + 1) body = for_from n (lo + 1) body')
    by (apply IH; intros i Hi; apply Hext; lia).
  now rewrite Hrest.
Qed.

Lemma main_hourly_from_loop (W : World) (response : WeatherResponse)
      (s : Z) :
  0 <= s -> main_hourly_from W response s = hourly_loop W response s.
Proof.
  intros Hs. unfold main_hourly_from, hourly_loop.
  rewrite hoursToPrint_min. unfold for_lt.
  rewrite (@for_from_ext (main_hourly_body W response s)
                         (fun j => main0_hourly_body W response (s + j))).
  - reflexivity.
  - intros j Hj. unfold main_hourly_body. cbv zeta.
    now replace (s + j >=? len (Hourly_Time (Hourly response)))
      with false by (symmetry; rewrite Z.geb_leb; apply Z.leb_gt; lia).
Qed.

Lemma main0_hourly_loop (W : World) (response : WeatherResponse) :
  main0_hourly W response = hourly_loop W response 0.
Proof.
  unfold main0_hourly, hourly_loop. rewrite daysToShow_min.
  rewrite Z.sub_0_r. unfold for_lt.
  rewrite (@for_from_ext (main0_hourly_body W response)
                         (fun j => main0_hourly_body W response (0 + j))).
  - reflexivity.
  - intros j Hj. now rewrite Z.add_0_l.
Qed.

(** X7: the guard of lines 184-186 never fires: from a start index
    [s >= 0] the hourly summary of the later program is the loop of the
    earlier one moved to [s], for every forecast, well-formed or not.
    From index 0 the two hourly summaries are the same, so when the
    time zone does not resolve the later program writes what the
    earlier one writes, after the warning. *)
Theorem X7_later_program_extends_earlier (W : World)
        (response : WeatherResponse) :
  (forall s, 0 <= s ->
             main_hourly_from W response s = hourly_loop W response s)
  /\ main_hourly_from W response 0 = main0_hourly W response
  /\ (forall err,
        time_LoadLocation W (Timezone response) = inr err ->
        main_hourly W response
        = (warning (Errorf_w ("error loading timezone " ++ Timezone response
                              ++ ": ") err)
             :: trace (main0_hourly W response),
           result (main0_hourly W response))).
Proof.
  assert (H0 : main_hourly_from W response 0 = main0_hourly W response).
  { rewrite main0_hourly_loop. apply main_hourly_from_loop. lia. }
  split; [intros s Hs; now apply main_hourly_from_loop|].
  split; [exact H0|].
  intros err Herr.
  destruct (@main_hourly_run W response [] 0
              (Some (Errorf_w ("error loading timezone "
                               ++ Timezone response ++ ": ") err)))
    as [Hrun _].
  - now apply findCurrentHourIndex_unresolved.
  - rewrite Hrun, H0. reflexivity.
Qed.

(** ** More on the search for the current hour *)

(** What the loop writes: the line of the entry found, when one is. *)
Lemma scanHours_lines (W : World) (loc : Location) (now : Time)
      (l : list string) : forall i0 tr r,
  scanHours W loc now i0 l = (tr, Return r) ->
  match r with
  | Some i =>
      exists s t,
        nth_error l (Z.to_nat (i - i0)) = Some s
        /\ i0 <= i
        /\ time_ParseInLocation W "2006-01-02T15:04" s loc = inl t
        /\ tr = [found_line W t i]
  | None => tr = []
  end.
Proof.
  induction l as [|timeStr rest IH]; intros i0 tr r Hrun.
  - injection Hrun as <- <-. reflexivity.
  - assert (Hnext : scanHours W loc now (i0 + 1) rest = (tr, Return r) ->
              match r with
              | Some i =>
                  exists s t,
                    nth_error (timeStr :: rest) (Z.to_nat (i - i0)) = Some s
                    /\ i0 <= i
                    /\ time_ParseInLocation W "2006-01-02T15:04" s loc = inl t
                    /\ tr = [found_line W t i]
              | None => tr = []
              end).
    { intros Hrest. specialize (IH _ _ _ Hrest). destruct r as [i|]; [|exact IH].
      destruct IH as (s & t & Hs & Hi & Hp & Htr).
      exists s, t. split; [|split; [lia | split; assumption]].
      replace (Z.to_nat (i - i0)) with (S (Z.to_nat (i - (i0 + 1)))) by lia.
      exact Hs. }
    cbn [scanHours] in Hrun.
    destruct (time_ParseInLocation W "2006-01-02T15:04" timeStr loc)
      as [forecastTime|e] eqn:Hp; [|now apply Hnext].
    destruct (After forecastTime now); [|now apply Hnext].
    injection Hrun as <- <-.
    exists timeStr, forecastTime. rewrite Z.sub_diag.
    split; [reflexivity|]. split; [lia|]. split; [exact Hp | reflexivity].
Qed.

(** The lines and the answer of the search, once the zone resolves. *)
Lemma findCurrentHourIndex_lines (W : World)
        (hourlyTimes : list string) (timezone : string) (loc : Location) :
  time_LoadLocation W timezone = inl loc ->
  (exists i s t,
      nth_error hourlyTimes (Z.to_nat i) = Some s
      /\ time_ParseInLocation W "2006-01-02T15:04" s loc = inl t
      /\ first_future W loc (time_Now W) hourlyTimes i
      /\ findCurrentHourIndex W hourlyTimes timezone
         = ([current_line W timezone loc; found_line W t i],
            Return (i, None)))
  \/ (no_future W loc (time_Now W) hourlyTimes
      /\ findCurrentHourIndex W hourlyTimes timezone
         = ([current_line W timezone loc; none_line], Return (0, None))).
Proof.
  intros H.
  destruct (scanHours_spec W loc (Time_In (time_Now W) loc) hourlyTimes 0)
    as (tr & r & Hrun & Hr).
  pose proof (scanHours_lines W loc _ hourlyTimes 0 Hrun) as Hl.
  unfold findCurrentHourIndex. rewrite H. cbv zeta.
  rewrite bind_print, Hrun, bind_Return.
  destruct r as [i|].
  - left. destruct Hl as (s & t & Hs & Hi & Hp & ->).
    destruct Hr as (Hrange & (s' & Hs' & Hf) & Hbefore).
    rewrite Z.sub_0_r in *.
    exists i, s, t. split; [exact Hs|]. split; [exact Hp|]. split.
    + split; [lia|]. split; [now exists s'|].
      intros j sj Hj Hnth. apply (Hbefore j sj); [lia|].
      now rewrite Z.sub_0_r.
    + reflexivity.
  - right. subst tr. split; [exact Hr | reflexivity].
Qed.

(** X8: once the time zone resolves, [findCurrentHourIndex] writes
    exactly two lines: the current time in the zone, then either
    [Found next forecast time: ... (index i)], with the time of the
    entry it returns and the index it returns, or
    [No future forecast times found, starting from beginning] when it
    falls back on index 0. *)
Theorem X8_search_reports_what_it_returns (W : World)
        (hourlyTimes : list string) (timezone : string) (loc : Location) :
  time_LoadLocation W timezone = inl loc ->
  (exists i s t,
      nth_error hourlyTimes (Z.to_nat i) = Some s
      /\ time_ParseInLocation W "2006-01-02T15:04" s loc = inl t
      /\ first_future W loc (time_Now W) hourlyTimes i
      /\ findCurrentHourIndex W hourlyTimes timezone
         = ([current_line W timezone loc; found_line W t i],
            Return (i, None)))
  \/ (no_future W loc (time_Now W) hourlyTimes
      /\ findCurrentHourIndex W hourlyTimes timezone
         = ([current_line W timezone loc; none_line], Return (0, None))).
Proof.
  intros H.
  destruct (findCurrentHourIndex_lines W hourlyTimes timezone H)
    as [Hfound|Hnone].
  - left. exact Hfound.
  - right. exact Hnone.
Qed.

(** X8 at the mocked library: the clock at 00:30 in UTC. *)
Lemma X8_witness :
  let W := Mock.serving "UTC" Mock.UTC in
  time_LoadLocation W "UTC" = inl Mock.UTC
  /\ exists i t,
      findCurrentHourIndex W (Hourly_Time (Hourly (Mock.sample "UTC"))) "UTC"
      = ([current_line W "UTC" Mock.UTC; found_line W t i], Return (i, None)).
Proof.
  intros W.
  assert (H : time_LoadLocation W "UTC" = inl Mock.UTC) by reflexivity.
  split; [exact H|].
  destruct (X8_search_reports_what_it_returns
              W (Hourly_Time (Hourly (Mock.sample "UTC"))) "UTC" H)
    as [(i & s & t & _ & _ & _ & Hrun)|[Hno _]].
  - exists i, t. exact Hrun.
  - exfalso. apply (Hno "2024-01-01T01:00").
    + right. left. reflexivity.
    + exists (Mock.Date 2024 1 1 1 0 Mock.UTC). split; reflexivity.
Defined.

(** X9: a later reading of the clock never gives an earlier index:
    as long as some entry is still after the later reading, the index
    found then is at least the index found at the earlier reading,
    whatever the order of the entries. *)
Theorem X9_later_clock_later_index (W : World) (later : Time)
        (hourlyTimes : list string) (timezone : string) (loc : Location)
        (i i' : Z) :
  time_LoadLocation W timezone = inl loc ->
  unixNano (time_Now W) <= unixNano later ->
  (exists s, List.In s hourlyTimes /\ future W loc later s) ->
  result (findCurrentHourIndex W hourlyTimes timezone) = Return (i, None) ->
  result (findCurrentHourIndex (at_time W later) hourlyTimes timezone)
  = Return (i', None) ->
  i <= i'.
Proof.
  intros H Hle (s & Hin & Hfut) Hrun Hrun'.
  destruct (findCurrentHourIndex_resolved W hourlyTimes timezone H)
    as (tr & j & Hj & Hcase).
  rewrite Hj in Hrun. injection Hrun as ->.
  destruct (@findCurrentHourIndex_resolved (at_time W later) hourlyTimes
              timezone loc H) as (tr' & j' & Hj' & Hcase').
  rewrite Hj' in Hrun'. injection Hrun' as ->.
  destruct Hcase' as [(Hr' & (s' & Hs' & Hf') & _)|[Hno _]].
  2:{ exfalso. exact (Hno s Hin Hfut). }
  assert (Hearly : future W loc (time_Now W) s').
  { destruct Hf' as (t & Ht & Hlt). exists t.
    split; [exact Ht | simpl in Hlt; lia]. }
  destruct Hcase as [(Hr & _ & Hbefore)|[_ ->]]; [|lia].
  destruct (Z.le_gt_cases i i') as [Hok|Hgt]; [exact Hok|].
  exfalso. exact (Hbefore i' s' ltac:(lia) Hs' Hearly).
Qed.

(** X9 at the mocked library: the clock at 00:30 and at 02:30. *)
Lemma X9_witness :
  let W := Mock.serving "UTC" Mock.UTC in
  let later := {| unixNano := Mock.instant "2024-01-01T02:30" Mock.UTC;
                  location := Mock.UTC |} in
  let l := Hourly_Time (Hourly (Mock.sample "UTC")) in
  result (findCurrentHourIndex W l "UTC") = Return (1, None)
  /\ result (findCurrentHourIndex (at_time W later) l "UTC")
     = Return (3, None)
  /\ 1 <= 3.
Proof.
  intros W later l.
  assert (H1 : result (findCurrentHourIndex W l "UTC") = Return (1, None))
    by (vm_compute; reflexivity).
  assert (H3 : result (findCurrentHourIndex (at_time W later) l "UTC")
               = Return (3, None)) by (vm_compute; reflexivity).
  split; [exact H1|]. split; [exact H3|].
  refine (@X9_later_clock_later_index W later l "UTC" Mock.UTC 1 3
            eq_refl _ _ H1 H3).
  - vm_compute. discriminate.
  - exists "2024-01-01T03:00". split.
    + right. right. right. left. reflexivity.
    + exists (Mock.Date 2024 1 1 3 0 Mock.UTC). split; reflexivity.
Defined.

(** X10: when the entries that parse are in ascending order of time
    and one of them is after the clock, the index found splits the
    sequence: every entry before it that parses is at or before the
    clock, and every entry from it on that parses is strictly after
    the clock, so the hourly summary shows future hours only. *)
Theorem X10_ascending_times_split_at_index (W : World)
        (hourlyTimes : list string) (timezone : string) (loc : Location)
        (i : Z) :
  time_LoadLocation W timezone = inl loc ->
  ascending W loc hourlyTimes ->
  (exists s, List.In s hourlyTimes /\ future W loc (time_Now W) s) ->
  result (findCurrentHourIndex W hourlyTimes timezone) = Return (i, None) ->
  0 <= i < len hourlyTimes
  /\ (forall j s t,
        0 <= j < i ->
        nth_error hourlyTimes (Z.to_nat j) = Some s ->
        time_ParseInLocation W "2006-01-02T15:04" s loc = inl t ->
        unixNano t <= unixNano (time_Now W))
  /\ (forall k s t,
        i <= k ->
        nth_error hourlyTimes (Z.to_nat k) = Some s ->
        time_ParseInLocation W "2006-01-02T15:04" s loc = inl t ->
        unixNano (time_Now W) < unixNano t).
Proof.
  intros H Hasc (s0 & Hin & Hfut) Hrun.
  destruct (findCurrentHourIndex_resolved W hourlyTimes timezone H)
    as (tr & j & Hj & Hcase).
  rewrite Hj in Hrun. injection Hrun as ->.
  destruct Hcase as [(Hr & (si & Hsi & ti & Hti & Hlt) & Hbefore)|[Hno _]].
  2:{ exfalso. exact (Hno s0 Hin Hfut). }
  split; [exact Hr|]. split.
  - intros j s t Hj' Hs Ht.
    destruct (Z.le_gt_cases (unixNano t) (unixNano (time_Now W)))
      as [Hok|Hgt]; [exact Hok|].
    exfalso. apply (Hbefore j s Hj' Hs). now exists t.
  - intros k s t Hk Hs Ht.
    assert (Hle : unixNano ti <= unixNano t).
    { apply (Hasc (Z.to_nat i) (Z.to_nat k) si s ti t); try assumption. lia. }
    lia.
Qed.

(** X10 at the mocked library: two entries, the clock at 00:30. *)
Lemma X10_witness :
  let W := Mock.serving "UTC" Mock.UTC in
  let l := ["2024-01-01T00:00"; "2024-01-01T01:00"] in
  time_LoadLocation W "UTC" = inl Mock.UTC
  /\ ascending W Mock.UTC l
  /\ result (findCurrentHourIndex W l "UTC") = Return (1, None)
  /\ 0 <= 1 < len l.
Proof.
  intros W l.
  assert (H : time_LoadLocation W "UTC" = inl Mock.UTC) by reflexivity.
  assert (Hasc : ascending W Mock.UTC l).
  { intros j k sj sk tj tk Hjk Hj Hk Htj Htk.
    destruct j as [|[|j]]; simpl in Hj;
      [injection Hj as <- | injection Hj as <- | destruct j; discriminate];
      (destruct k as [|[|k]]; simpl in Hk;
       [injection Hk as <- | injection Hk as <- | destruct k; discriminate]);
      vm_compute in Htj; vm_compute in Htk;
      injection Htj as <-; injection Htk as <-; simpl;
      try (vm_compute; discriminate).
    exfalso. inversion Hjk. }
  assert (Hrun : result (findCurrentHourIndex W l "UTC") = Return (1, None))
    by (vm_compute; reflexivity).
  split; [exact H|]. split; [exact Hasc|]. split; [exact Hrun|].
  refine (proj1 (@X10_ascending_times_split_at_index
                   W l "UTC" Mock.UTC 1 H Hasc _ Hrun)).
  exists "2024-01-01T01:00". split.
  - right. left. reflexivity.
  - exists (Mock.Date 2024 1 1 1 0 Mock.UTC). split; reflexivity.
Defined.

(** The scan stops at the entry it finds. *)
Lemma scanHours_app_found (W : World) (loc : Location) (now : Time)
      (l extra : list string) : forall i0 tr i,
  scanHours W loc now i0 l = (tr, Return (Some i)) ->
  scanHours W loc now i0 (l ++ extra)%list = (tr, Return (Some i)).
Proof.
  induction l as [|s l IH]; intros i0 tr i Hrun.
  - discriminate.
  - cbn [scanHours app] in *.
    destruct (time_ParseInLocation W "2006-01-02T15:04" s loc) as [t|e];
      [|now apply IH].
    destruct (After t now); [exact Hrun | now apply IH].
Qed.

(** Entries that are not in the future, parsed or not, are passed
    over without a word. *)
Lemma scanHours_pass (W : World) (loc : Location) (now : Time)
      (pre rest : list string) : forall i0 : Z,
  (forall s, List.In s pre -> ~ future W loc now s) ->
  scanHours W loc now i0 (pre ++ rest)%list
  = scanHours W loc now (i0 + len pre) rest.
Proof.
  induction pre as [|s pre IH]; intros i0 Hpre.
  - simpl. now rewrite Z.add_0_r.
  - assert (Hlen : i0 + len (s :: pre) = i0 + 1 + len pre)
      by (unfold len; simpl List.length; lia).
    assert (Hrest : scanHours W loc now (i0 + 1) (pre ++ rest)%list
                    = scanHours W loc now (i0 + len (s :: pre)) rest).
    { rewrite Hlen. apply IH. intros s' Hin. apply Hpre. now right. }
    cbn [scanHours app].
    destruct (time_ParseInLocation W "2006-01-02T15:04" s loc) as [t|e] eqn:Hp;
      [|exact Hrest].
    destruct (After t now) eqn:Ha; [|exact Hrest].
    exfalso. apply (Hpre s); [now left|].
    now apply (future_After W loc now s Hp).
Qed.

(** X11: the search reads the sequence only up to the entry it finds:
    when some entry is after the clock, entries added behind the
    sequence change neither the index nor the lines written.  When no
    entry is after the clock, the scan of a longer sequence goes on
    behind them, at the index of their number, having written
    nothing. *)
Theorem X11_search_stops_at_first_future (W : World)
        (hourlyTimes extra : list string) (timezone : string)
        (loc : Location) :
  time_LoadLocation W timezone = inl loc ->
  let now := Time_In (time_Now W) loc in
  ((exists s, List.In s hourlyTimes /\ future W loc (time_Now W) s) ->
   findCurrentHourIndex W (hourlyTimes ++ extra)%list timezone
   = findCurrentHourIndex W hourlyTimes timezone)
  /\ (no_future W loc (time_Now W) hourlyTimes ->
      forall i,
        scanHours W loc now i (hourlyTimes ++ extra)%list
        = scanHours W loc now (i + len hourlyTimes) extra).
Proof.
  intros H now. split.
  - intros (s & Hin & Hfut).
    destruct (scanHours_spec W loc now hourlyTimes 0) as (tr & r & Hrun & Hr).
    destruct r as [i|]; [|exfalso; exact (Hr s Hin Hfut)].
    unfold findCurrentHourIndex. rewrite H. cbv zeta. fold now.
    now rewrite (scanHours_app_found W loc now hourlyTimes extra 0 Hrun), Hrun.
  - intros Hno i. apply scanHours_pass. exact Hno.
Qed.

(** X11 at the mocked library: a second day of entries behind the
    first changes nothing at 00:30 of the first. *)
Lemma X11_witness :
  let W := Mock.serving "UTC" Mock.UTC in
  let l := Hourly_Time (Hourly (Mock.sample "UTC")) in
  time_LoadLocation W "UTC" = inl Mock.UTC
  /\ findCurrentHourIndex W (l ++ ["2024-01-02T00:00"; "bad"])%list "UTC"
     = findCurrentHourIndex W l "UTC".
Proof.
  intros W l.
  assert (H : time_LoadLocation W "UTC" = inl Mock.UTC) by reflexivity.
  split; [exact H|].
  apply (proj1 (@X11_search_stops_at_first_future
                  W l ["2024-01-02T00:00"; "bad"] "UTC" Mock.UTC H)).
  exists "2024-01-01T01:00". split.
  - right. left. reflexivity.
  - exists (Mock.Date 2024 1 1 1 0 Mock.UTC). split; reflexivity.
Defined.

(** ** Labels *)

Lemma dayLabel_inj (i j : Z) : dayLabel i = dayLabel j -> i = j.
Proof.
  unfold dayLabel.
  destruct (Z.eqb_spec i 0) as [->|Hi0]; destruct (Z.eqb_spec j 0) as [->|Hj0];
    try reflexivity;
    try (destruct (Z.eqb_spec j 1); simpl; discriminate);
    try (destruct (Z.eqb_spec i 1); simpl; discriminate).
  destruct (Z.eqb_spec i 1) as [->|Hi1]; destruct (Z.eqb_spec j 1) as [->|Hj1];
    try reflexivity; try (simpl; discriminate).
  intros Heq. simpl in Heq. injection Heq as Heq.
  apply itoa_inj in Heq. lia.
Qed.

(** X12: two different days never carry the same label, so no two
    entries of the daily summary are labelled alike. *)
Theorem X12_dayLabel_injective (i j : Z) : i <> j -> dayLabel i <> dayLabel j.
Proof.
  intros Hne Heq. apply Hne. now apply dayLabel_inj.
Qed.

(** X12 at the third and the twelfth day. *)
Lemma X12_witness : 2 <> 11 /\ dayLabel 2 <> dayLabel 11.
Proof.
  assert (H : 2 <> 11) by discriminate.
  split; [exact H|].
  exact (X12_dayLabel_injective H).
Defined.

(** ** The hourly summary of a run *)

(** X13: with hourly sequences of one length that are not empty, the
    hourly summary of a run shows at least one entry and at most five,
    all of them entries of the forecast, whatever the clock and the
    time zone. *)
Theorem X13_one_to_five_hours (W : World) (response : WeatherResponse) :
  hourly_aligned (Hourly response) ->
  Hourly_Time (Hourly response) <> [] ->
  exists tr s n,
    main_hourly W response
    = ((tr ++ hourly_header
           :: map (hourly_entry W response) (Zseq s n))%list,
       Return tt)
    /\ (1 <= n <= 5)%nat
    /\ 0 <= s
    /\ s + Z.of_nat n <= len (Hourly_Time (Hourly response))
    /\ Forall is_Stdout tr.
Proof.
  intros Ha Hne.
  destruct (findCurrentHourIndex_range
              W (Hourly_Time (Hourly response)) (Timezone response))
    as (tr & s & e & Hrun & Hs).
  destruct (main_hourly_run W response Hrun) as [Hmain Hs0].
  assert (Hpos : 0 < len (Hourly_Time (Hourly response))).
  { destruct (Hourly_Time (Hourly response)); [congruence|].
    unfold len. simpl List.length. lia. }
  assert (Hlt : s < len (Hourly_Time (Hourly response)))
    by (destruct Hs as [->|Hs]; lia).
  rewrite (main_hourly_from_run W response Ha Hs0) in Hmain.
  unfold trace, result in Hmain. simpl fst in Hmain. simpl snd in Hmain.
  exists (tr ++ match e with Some err => [warning err] | None => [] end)%list,
         s,
         (Z.to_nat (Z.max 0 (Z.min 5 (len (Hourly_Time (Hourly response))
                                      - s)))).
  split; [rewrite Hmain; now rewrite <- app_assoc|].
  split; [lia|]. split; [exact Hs0|]. split; [lia|].
  apply Forall_app. split.
  - pose proof (quiet_findCurrentHourIndex
                  W (Hourly_Time (Hourly response)) (Timezone response))
      as (Hq & _).
    now rewrite Hrun in Hq.
  - destruct e; repeat constructor.
Qed.

(** X13 at the mocked service. *)
Lemma X13_witness :
  let W := Mock.serving "UTC" Mock.UTC in
  hourly_aligned (Hourly (Mock.sample "UTC"))
  /\ Hourly_Time (Hourly (Mock.sample "UTC")) <> []
  /\ exists tr s n,
      main_hourly W (Mock.sample "UTC")
      = ((tr ++ hourly_header
             :: map (hourly_entry W (Mock.sample "UTC")) (Zseq s n))%list,
         Return tt)
      /\ (1 <= n <= 5)%nat.
Proof.
  intros W.
  assert (Ha : hourly_aligned (Hourly (Mock.sample "UTC")))
    by (repeat split).
  assert (Hne : Hourly_Time (Hourly (Mock.sample "UTC")) <> [])
    by discriminate.
  split; [exact Ha|]. split; [exact Hne|].
  destruct (X13_one_to_five_hours W (Mock.sample "UTC") Ha Hne)
    as (tr & s & n & Hrun & Hn & _).
  exists tr, s, n. split; assumption.
Defined.

(** ** More on the request and its failures *)

Lemma QueryEscape_plain (s : string) : plain s = true -> QueryEscape s = s.
Proof.
  induction s as [|c s IH]; [reflexivity|].
  simpl. intros H. apply andb_prop in H as [Hc Hs].
  destruct (Ascii.eqb_spec c " ") as [->|_]; [discriminate|].
  destruct (shouldEscape c); [discriminate|].
  now rewrite IH.
Qed.

Lemma fullURL_encoded (W : World) (latitude longitude : float64) :
  fullURL W latitude longitude
  = "https://api.open-meteo.com/v1/forecast?"
    ++ "daily=temperature_2m_max%2Ctemperature_2m_min%2Cprecipitation_sum%2Crain_sum%2Cprecipitation_hours%2Cprecipitation_probability_max%2Cwind_speed_10m_max"
    ++ "&hourly=temperature_2m%2Cprecipitation_probability%2Cprecipitation"
    ++ "&latitude="
    ++ QueryEscape (strconv_FormatFloat W latitude "f" (-1) 64)
    ++ "&longitude="
    ++ QueryEscape (strconv_FormatFloat W longitude "f" (-1) 64)
    ++ "&timezone=auto".
Proof.
  unfold fullURL, baseURL, Values_Encode.
  change (slices_Sort _)
    with ["daily"; "hourly"; "latitude"; "longitude"; "timezone"].
  cbn [fold_left].
  change (Values_lookup _ "daily")
    with ["temperature_2m_max,temperature_2m_min,precipitation_sum,rain_sum,precipitation_hours,precipitation_probability_max,wind_speed_10m_max"].
  change (Values_lookup _ "hourly")
    with ["temperature_2m,precipitation_probability,precipitation"].
  change (Values_lookup _ "latitude")
    with [strconv_FormatFloat W latitude "f" (-1) 64].
  change (Values_lookup _ "longitude")
    with [strconv_FormatFloat W longitude "f" (-1) 64].
  change (Values_lookup _ "timezone") with ["auto"].
  cbn [fold_left].
  rewrite !Encode_pair_next, Encode_pair_first, !append_assoc.
  reflexivity.
Qed.

(** X14: when the library formats a coordinate with digits, letters
    and the marks [-], [.], [_], [~] only (the digits, the sign and the
    point of a decimal number are such bytes), the coordinate stands in
    the URL of the request as it was formatted, between [latitude=]
    (or [longitude=]) and the next [&]. *)
Theorem X14_coordinates_stand_as_formatted (W : World)
        (latitude longitude : float64) :
  plain (strconv_FormatFloat W latitude "f" (-1) 64) = true ->
  plain (strconv_FormatFloat W longitude "f" (-1) 64) = true ->
  fullURL W latitude longitude
  = "https://api.open-meteo.com/v1/forecast?"
    ++ "daily=temperature_2m_max%2Ctemperature_2m_min%2Cprecipitation_sum%2Crain_sum%2Cprecipitation_hours%2Cprecipitation_probability_max%2Cwind_speed_10m_max"
    ++ "&hourly=temperature_2m%2Cprecipitation_probability%2Cprecipitation"
    ++ "&latitude=" ++ strconv_FormatFloat W latitude "f" (-1) 64
    ++ "&longitude=" ++ strconv_FormatFloat W longitude "f" (-1) 64
    ++ "&timezone=auto".
Proof.
  intros Hlat Hlon. rewrite fullURL_encoded.
  now rewrite (QueryEscape_plain _ Hlat), (QueryEscape_plain _ Hlon).
Qed.

(** X14 at the mocked formatting of a point in Sydney. *)
Lemma X14_witness :
  let W := Mock.serving "UTC" Mock.UTC in
  plain (strconv_FormatFloat W (-33.8688)%float "f" (-1) 64) = true
  /\ plain (strconv_FormatFloat W 151.2093%float "f" (-1) 64) = true
  /\ fullURL W (-33.8688)%float 151.2093%float
     = "https://api.open-meteo.com/v1/forecast?daily=temperature_2m_max%2Ctemperature_2m_min%2Cprecipitation_sum%2Crain_sum%2Cprecipitation_hours%2Cprecipitation_probability_max%2Cwind_speed_10m_max&hourly=temperature_2m%2Cprecipitation_probability%2Cprecipitation&latitude=-33.8688&longitude=151.2093&timezone=auto".
Proof.
  intros W.
  assert (H1 : plain (strconv_FormatFloat W (-33.8688)%float "f" (-1) 64)
               = true) by (vm_compute; reflexivity).
  assert (H2 : plain (strconv_FormatFloat W 151.2093%float "f" (-1) 64)
               = true) by (vm_compute; reflexivity).
  split; [exact H1|]. split; [exact H2|].
  rewrite (X14_coordinates_stand_as_formatted W _ _ H1 H2).
  vm_compute. reflexivity.
Defined.

(** X15: [GetWeatherForecast] returns exactly one of a response and an
    error, never both and never neither.  When the world answers with
    status 200 and a body that reads and decodes, the response returned
    is the decoded one.  When the transport, the reading of the body or
    the decoding fails with the library's error [cause], the error
    returned wraps that very [cause]: [Unwrap] gives it back and the
    message is the fixed text of the failure followed by the message of
    [cause].  The error of a status other than 200 wraps nothing. *)
Theorem X15_response_or_error (W : World) (latitude longitude : float64) :
  let fetch := result (GetWeatherForecast W latitude longitude) in
  let answer := http_Get W (fullURL W latitude longitude) in
  (exists r e,
      fetch = Return (r, e)
      /\ ((exists response, r = Some response /\ e = None)
          \/ (r = None /\ exists err, e = Some err)))
  /\ (forall resp body response,
        answer = inl resp ->
        StatusCode resp = 200 ->
        Body_ReadAll resp = inl body ->
        json_Unmarshal W body = inl response ->
        fetch = Return (Some response, None))
  /\ (forall cause,
        answer = inr cause ->
        exists err,
          fetch = Return (None, Some err)
          /\ Unwrap err = Some cause
          /\ Error err = "error making request: " ++ Error cause)
  /\ (forall resp cause,
        answer = inl resp ->
        StatusCode resp = 200 ->
        Body_ReadAll resp = inr cause ->
        exists err,
          fetch = Return (None, Some err)
          /\ Unwrap err = Some cause
          /\ Error err = "error reading response body: " ++ Error cause)
  /\ (forall resp body cause,
        answer = inl resp ->
        StatusCode resp = 200 ->
        Body_ReadAll resp = inl body ->
        json_Unmarshal W body = inr cause ->
        exists err,
          fetch = Return (None, Some err)
          /\ Unwrap err = Some cause
          /\ Error err = "error parsing JSON response: " ++ Error cause)
  /\ (forall resp,
        answer = inl resp ->
        StatusCode resp <> 200 ->
        exists err,
          fetch = Return (None, Some err)
          /\ Unwrap err = None
          /\ Error err = "API request failed with status code: "
                         ++ itoa (StatusCode resp)).
Proof.
  intros fetch answer. unfold fetch, answer.
  rewrite GetWeatherForecast_result. unfold fetch_outcome.
  split; [|split; [|split; [|split; [|split]]]].
  - destruct (http_Get W (fullURL W latitude longitude)) as [resp|cause].
    2:{ eexists None, _. split; [reflexivity|]. right.
        split; [reflexivity|]. eexists. reflexivity. }
    destruct (StatusCode resp =? 200).
    2:{ eexists None, _. split; [reflexivity|]. right.
        split; [reflexivity|]. eexists. reflexivity. }
    destruct (Body_ReadAll resp) as [body|cause].
    2:{ eexists None, _. split; [reflexivity|]. right.
        split; [reflexivity|]. eexists. reflexivity. }
    destruct (json_Unmarshal W body) as [response|cause].
    + exists (Some response), None. split; [reflexivity|]. left.
      now exists response.
    + eexists None, _. split; [reflexivity|]. right.
      split; [reflexivity|]. eexists. reflexivity.
  - intros resp body response -> Hc -> ->.
    now replace (StatusCode resp =? 200) with true
      by (symmetry; apply Z.eqb_eq; exact Hc).
  - intros cause ->. eexists. split; [reflexivity|]. split; reflexivity.
  - intros resp cause -> Hc ->.
    replace (StatusCode resp =? 200) with true
      by (symmetry; apply Z.eqb_eq; exact Hc).
    eexists. split; [reflexivity|]. split; reflexivity.
  - intros resp body cause -> Hc -> ->.
    replace (StatusCode resp =? 200) with true
      by (symmetry; apply Z.eqb_eq; exact Hc).
    eexists. split; [reflexivity|]. split; reflexivity.
  - intros resp -> Hc.
    replace (StatusCode resp =? 200) with false
      by (symmetry; apply Z.eqb_neq; exact Hc).
    eexists. split; [reflexivity|]. split; reflexivity.
Qed.

(** X4 at the mocked sample: three days of data, seven asked for. *)
Lemma X4_witness :
  let W := Mock.serving "UTC" Mock.UTC in
  main_daily W (Mock.sample "UTC") 7
  = (flat_map (daily_entry W (Mock.sample "UTC")) [0; 1; 2], Return tt).
Proof.
  intros W.
  apply (proj1 (X4_daily_reads_only_what_it_shows W (Mock.sample "UTC") 7)).
  intros i Hi. vm_compute in Hi. destruct Hi as [H0 H3].
  unfold daily_covers.
  assert (Hlt : i < 3) by exact H3.
  repeat split; exact Hlt.
Defined.

(** X6 at a service whose forecast has a date and no temperatures. *)
Lemma X6_witness :
  let response :=
    {| Latitude := 0%float; Longitude := 0%float; Timezone := "UTC";
       Hourly := Hourly (Mock.sample "UTC");
       Daily := {| Daily_Time := ["2024-01-01"];
                   Daily_Temperature2mMax := [];
                   Daily_Temperature2mMin := [];
                   Daily_PrecipitationSum := []; Daily_RainSum := [];
                   Daily_PrecipitationHours := [];
                   Daily_PrecipitationProbabilityMax := [];
                   Daily_WindSpeed10mMax := [] |} |} in
  let W := Mock.world 0 Mock.ok (inl response) in
  result (main W Mock.no_flags) = Panic "index out of range"
  /\ exists r, fetched W Mock.no_flags = inl r /\ ~ aligned r.
Proof.
  intros response W.
  assert (Hp : result (main W Mock.no_flags) = Panic "index out of range")
    by (vm_compute; reflexivity).
  split; [exact Hp|].
  exact (proj2 (proj2 (proj1 (X6_panics_only_on_misaligned_forecast
                                W Mock.no_flags "index out of range") Hp))).
Defined.

(** ** A whole run *)

(** X16: a run with a day count of at least 1, a fetch that succeeds
    with a forecast whose sequences share one length within each
    group, and a time zone that resolves writes, in this order: the
    notice when no flag was set, (the request,) the header, the daily
    entries 0 to [min(days, len(daily.time)) - 1], the current time,
    the line of the search, the hourly header and the hourly entries
    from the index [s] of the search; it then returns.  The line of
    the search names [s] when an entry is after the clock, and
    otherwise says that none is, [s] being 0. *)
Theorem X16_whole_run (W : World) (flags : Flags)
        (response : WeatherResponse) (loc : Location) :
  1 <= days_of flags ->
  fetched W flags = inl response ->
  aligned response ->
  time_LoadLocation W (Timezone response) = inl loc ->
  exists s line,
    main W flags
    = ((notice W flags
        ++ [HttpGet (request_of W flags); header W response]
        ++ flat_map (daily_entry W response)
             (Zseq 0 (Z.to_nat (Z.min (days_of flags)
                                      (len (Daily_Time (Daily response))))))
        ++ [current_line W (Timezone response) loc; line]
        ++ hourly_header
           :: map (hourly_entry W response)
                (Zseq s (Z.to_nat
                           (Z.max 0 (Z.min 5 (len (Hourly_Time
                                                     (Hourly response))
                                              - s))))))%list,
       Return tt)
    /\ ((exists t, line = found_line W t s
                   /\ first_future W loc (time_Now W)
                                   (Hourly_Time (Hourly response)) s)
        \/ (line = none_line /\ s = 0
            /\ no_future W loc (time_Now W)
                         (Hourly_Time (Hourly response)))).
Proof.
  intros Hd Hf [Hh Hdaily] Hloc.
  assert (Hshape : exists s line,
             findCurrentHourIndex W (Hourly_Time (Hourly response))
                                  (Timezone response)
             = ([current_line W (Timezone response) loc; line],
                Return (s, None))
             /\ ((exists t, line = found_line W t s
                            /\ first_future W loc (time_Now W)
                                 (Hourly_Time (Hourly response)) s)
                 \/ (line = none_line /\ s = 0
                     /\ no_future W loc (time_Now W)
                          (Hourly_Time (Hourly response))))).
  { destruct (findCurrentHourIndex_lines
                W (Hourly_Time (Hourly response)) (Timezone response) Hloc)
      as [(i & s & t & _ & _ & Hff & Hrun)|[Hno Hrun]].
    - exists i, (found_line W t i). split; [exact Hrun|]. left. now exists t.
    - exists 0, none_line. split; [exact Hrun|]. right. now repeat split. }
  destruct Hshape as (s & line & Hrun & Hline).
  exists s, line. split; [|exact Hline].
  destruct (main_hourly_run W response Hrun) as [Hmain Hs].
  rewrite (main_hourly_from_run W response Hh Hs) in Hmain.
  unfold main. rewrite (main_with_fetch_ok _ _ _ Hd Hf).
  rewrite (main_daily_run _ _ _ Hdaily), bind_Return, Hmain.
  unfold trace, result. simpl fst. simpl snd.
  reflexivity.
Qed.

(** X16 at the mocked service with no flags, the clock at 00:30 UTC. *)
Lemma X16_witness :
  let W := Mock.serving "UTC" Mock.UTC in
  1 <= days_of Mock.no_flags
  /\ fetched W Mock.no_flags = inl (Mock.sample "UTC")
  /\ aligned (Mock.sample "UTC")
  /\ time_LoadLocation W "UTC" = inl Mock.UTC
  /\ result (main W Mock.no_flags) = Return tt.
Proof.
  intros W.
  assert (Hd : 1 <= days_of Mock.no_flags) by (vm_compute; discriminate).
  assert (Hf : fetched W Mock.no_flags = inl (Mock.sample "UTC"))
    by reflexivity.
  assert (Ha : aligned (Mock.sample "UTC")) by (repeat split).
  assert (Hl : time_LoadLocation W (Timezone (Mock.sample "UTC"))
               = inl Mock.UTC) by reflexivity.
  split; [exact Hd|]. split; [exact Hf|]. split; [exact Ha|].
  split; [exact Hl|].
  destruct (X16_whole_run W Mock.no_flags Hd Hf Ha Hl)
    as (s & line & Hrun & _).
  rewrite Hrun. reflexivity.
Defined.
